(** * GeoJson2Rhino: GeoJSON feature collections to host-document objects

    A shallow embedding of [GeoJson2Rhino.py].  The module is dynamically
    typed Python driving a host CAD document, so the embedding has three
    layers:

    - the decoded JSON values the module subscripts and iterates, with
      Python's rules for [v[k]], [for x in v] and truthiness;
    - the host document (layer table, object table, object attributes),
      threaded explicitly through a state-and-exception monad;
    - the module's own functions, one definition per source function. *)

From Stdlib Require Import ZArith PrimFloat FloatOps SpecFloat.
From stdpp Require Import gmap strings list pretty.

Set Warnings "-register-all".
Local Open Scope string_scope.
Local Open Scope Z_scope.
Local Open Scope list_scope.

(** ** Decoded JSON, as [json.loads] hands it to the module

    Objects are association lists in iteration order; a decoded object has
    no repeated key.  Numbers keep Python's split between [int] and
    [float]; floats are IEEE doubles. *)

Inductive json : Type :=
| JNull
| JBool (b : bool)
| JInt (n : Z)
| JFloat (f : float)
| JStr (s : string)
| JArr (items : list json)
| JObj (members : list (string * json)).

(** ** Python exceptions the module can meet *)

Inductive exn : Type :=
| KeyError (key : json)
| IndexError
| TypeError
| ValueError
| UnboundLocalError (name : string).

Inductive res (A : Type) : Type :=
| Ok (a : A)
| Raise (e : exn).
Arguments Ok {A} a.
Arguments Raise {A} e.

Definition res_bind {A B} (r : res A) (k : A -> res B) : res B :=
  match r with
  | Ok a => k a
  | Raise e => Raise e
  end.

Definition is_ok {A} (r : res A) : bool :=
  match r with Ok _ => true | Raise _ => false end.

Declare Scope py_scope.
Delimit Scope py_scope with py.
Notation "'let?' x ':=' r 'in' k" := (res_bind r (fun x => k))
  (at level 10, x name, r at level 100, k at level 200) : py_scope.
Local Open Scope py_scope.

(** A [for] loop over a Python list that rebinds one local ([acc]) in its
    body; the first exception ends the loop. *)
Fixpoint for_res {A S} (xs : list A) (body : A -> S -> res S) (acc : S) : res S :=
  match xs with
  | [] => Ok acc
  | x :: rest => let? acc' := body x acc in for_res rest body acc'
  end.

(** *** Python's operations on decoded values *)

Fixpoint chars (s : string) : list json :=
  match s with
  | EmptyString => []
  | String c rest => JStr (String c EmptyString) :: chars rest
  end.

(** [for x in v]: a list yields its items, a dict its keys, a string its
    characters; nothing else is iterable. *)
Definition iter (v : json) : res (list json) :=
  match v with
  | JArr items => Ok items
  | JObj members => Ok (map (fun kv => JStr (fst kv)) members)
  | JStr s => Ok (chars s)
  | _ => Raise TypeError
  end.

(** [bool(v)], as the [if] statement applies it. *)
Definition truthy (v : json) : bool :=
  match v with
  | JNull => false
  | JBool b => b
  | JInt n => negb (n =? 0)
  | JFloat f => negb (PrimFloat.eqb f 0%float)
  | JStr s => negb (String.eqb s "")
  | JArr items => match items with [] => false | _ => true end
  | JObj members => match members with [] => false | _ => true end
  end.

Fixpoint dict_get {V} (members : list (string * V)) (key : string) : option V :=
  match members with
  | [] => None
  | (k, v) :: rest => if String.eqb k key then Some v else dict_get rest key
  end.

(** [d[k]] on a dict with string keys only: any other hashable key is
    absent, an unhashable one (a list, a dict) is a type error. *)
Definition dict_subscript {V} (members : list (string * V)) (k : json) : res V :=
  match k with
  | JStr s => match dict_get members s with
              | Some x => Ok x
              | None => Raise (KeyError k)
              end
  | JArr _ | JObj _ => Raise TypeError
  | _ => Raise (KeyError k)
  end.

(** Sequence indexing, with Python's negative indices. *)
Definition seq_get {A} (l : list A) (i : Z) : option A :=
  let n := Z.of_nat (length l) in
  let j := if i <? 0 then i + n else i in
  if (0 <=? j) && (j <? n) then l !! (Z.to_nat j) else None.

Definition seq_item (l : list json) (i : Z) : res json :=
  match seq_get l i with
  | Some v => Ok v
  | None => Raise IndexError
  end.

(** [v[k]]: dicts by key, sequences by integer (or bool) index. *)
Definition subscript (v k : json) : res json :=
  match v with
  | JObj members => dict_subscript members k
  | JArr items =>
      match k with
      | JInt i => seq_item items i
      | JBool b => seq_item items (if b then 1 else 0)
      | _ => Raise TypeError
      end
  | JStr s =>
      match k with
      | JInt i => seq_item (chars s) i
      | JBool b => seq_item (chars s) (if b then 1 else 0)
      | _ => Raise TypeError
      end
  | _ => Raise TypeError
  end.

(** The two builtins the module calls and does not define: [str], which
    returns on every decoded value (how a float or a container is written
    is the runtime's business), and [json.loads], which raises on malformed
    text. *)
Class PythonRuntime : Type := {
  str : json -> string;
  json_loads : string -> res json;
}.

(** ** The host document

    The module drives an external application through [scriptcontext.doc],
    [Rhino] and [System.Drawing]; none of it is part of the sources.  What
    follows is a stand-in document with the surface the module uses: layers
    and objects are tables indexed by position, and the identifier of an
    object is its position in the object table. *)

Module Drawing.

(** Modelled from the spec: the host's color value type
    ([System.Drawing.Color]), as its four channels. *)
Inductive Color : Type := FromArgb (a r g b : Z).

Definition Black : Color := FromArgb 255 0 0 0.

#[global] Instance Color_eq_dec : EqDecision Color.
Proof. solve_decision. Defined.

End Drawing.

(** Modelled from the spec: an entry of the host's layer registry, a name
    and a per-layer color. *)
Record Layer : Type := mkLayer {
  Name : string;
  Color : Drawing.Color;
}.

(** Modelled from the spec: the attribute set of an object
    ([Rhino.DocObjects.ObjectAttributes]), with per-key string tags and a
    layer-index field.  [LayerIndex] is [None] until the module assigns one
    (the object then stays on the host's default layer). *)
Record ObjectAttributes : Type := mkObjectAttributes {
  LayerIndex : option Z;
  UserStrings : gmap string string;
}.

(** Modelled from the spec: the host's point ([Rhino.Geometry.Point3d]),
    three doubles. *)
Record Point3d : Type := mkPoint3d {
  PX : float;
  PY : float;
  PZ : float;
}.

(** Modelled from the spec: the host's control-point curve, as the points
    and the degree it was built from. *)
Record Curve : Type := mkCurve {
  ControlPoints : list Point3d;
  Degree : Z;
}.

Inductive Geometry : Type :=
| GPoint (p : Point3d)
| GCurve (c : Curve).

Record RhinoObject : Type := mkRhinoObject {
  Geom : Geometry;
  Attributes : ObjectAttributes;
}.

Definition Guid : Type := nat.

(** Modelled from the spec: the host document ([scriptcontext.doc]), its
    layer registry and its object registry. *)
Record Document : Type := mkDocument {
  Layers : list Layer;
  Objects : list RhinoObject;
}.

(** *** Computations on the document: state and exceptions

    An exception keeps the document as it was when it was raised: the host
    has no rollback. *)

Definition M (A : Type) : Type := Document -> res A * Document.

Definition ret {A} (a : A) : M A := fun d => (Ok a, d).
Definition raise {A} (e : exn) : M A := fun d => (Raise e, d).
Definition lift {A} (r : res A) : M A := fun d => (r, d).

Definition bind {A B} (m : M A) (k : A -> M B) : M B :=
  fun d =>
    match m d with
    | (Ok a, d') => k a d'
    | (Raise e, d') => (Raise e, d')
    end.

Notation "'let*' x ':=' m 'in' k" := (bind m (fun x => k))
  (at level 10, x name, m at level 100, k at level 200) : py_scope.

Fixpoint for_each {A S} (xs : list A) (body : A -> S -> M S) (acc : S) : M S :=
  match xs with
  | [] => ret acc
  | x :: rest => let* acc' := body x acc in for_each rest body acc'
  end.

(** *** Layer table: [doc.Layers] *)

Fixpoint find_layer (layerName : string) (layers : list Layer) : option nat :=
  match layers with
  | [] => None
  | l :: rest =>
      if String.eqb (Name l) layerName then Some 0%nat
      else option_map S (find_layer layerName rest)
  end.

(** Modelled from the spec: [doc.Layers.Find(name, ignoreDeleted)], the
    registry's find-by-name: the index of the layer of that name, or -1.
    The stand-in document has no deleted layers. *)
Definition Layers_Find (layerName : string) (ignoreDeleted : bool) : M Z :=
  fun d =>
    (Ok (match find_layer layerName (Layers d) with
         | Some i => Z.of_nat i
         | None => -1
         end), d).

(** Modelled from the spec: [doc.Layers.Add(name, color)], the registry's
    add: a new last layer; its index. *)
Definition Layers_Add (layerName : string) (layerColor : Drawing.Color) : M Z :=
  fun d =>
    (Ok (Z.of_nat (length (Layers d))),
     mkDocument (Layers d ++ [mkLayer layerName layerColor]) (Objects d)).

(** Modelled from the spec: [doc.Layers[i]], the registry's entry at an
    index. *)
Definition Layers_item (i : Z) : M Layer :=
  fun d =>
    match (if i <? 0 then None else Layers d !! Z.to_nat i) with
    | Some l => (Ok l, d)
    | None => (Raise IndexError, d)
    end.

(** Modelled from the spec: [doc.Layers[i].Color = c], the per-layer color.
    The layer is the table's own entry, so the assignment shows in the
    document. *)
Definition Layer_set_Color (i : Z) (c : Drawing.Color) : M unit :=
  fun d =>
    (Ok tt,
     mkDocument (alter (fun l => mkLayer (Name l) c) (Z.to_nat i) (Layers d))
                (Objects d)).

(** *** Object table: [doc.Objects] *)

(** Modelled from the spec: the object registry's create operation: a new
    last object under a copy of the attributes; its identifier. *)
Definition Objects_Add (g : Geometry) (att : ObjectAttributes) : M Guid :=
  fun d =>
    (Ok (length (Objects d)),
     mkDocument (Layers d) (Objects d ++ [mkRhinoObject g att])).

Definition Objects_AddPoint (p : Point3d) (att : ObjectAttributes) : M Guid :=
  Objects_Add (GPoint p) att.

(** Modelled from the spec: [doc.Objects.AddCurve], create curve.  Handed no
    curve ([None], Python's [None]) it creates nothing and hands back
    [Guid.Empty], here [None]: the identifier that names no object. *)
Definition Objects_AddCurve (c : option Curve) (att : ObjectAttributes)
  : M (option Guid) :=
  match c with
  | Some curve => let* g := Objects_Add (GCurve curve) att in ret (Some g)
  | None => ret None
  end.

(** Modelled from the spec: [doc.Objects.AddPoints], create multiple
    points: one object per point, the identifiers returned as one
    collection. *)
Definition Objects_AddPoints (ps : list Point3d) (att : ObjectAttributes)
  : M (list Guid) :=
  for_each ps (fun p ids => let* g := Objects_AddPoint p att in ret (ids ++ [g])) [].

(** *** Attributes, points and curves *)

Definition new_ObjectAttributes : ObjectAttributes :=
  mkObjectAttributes None ∅.

Definition set_LayerIndex (att : ObjectAttributes) (i : Z) : ObjectAttributes :=
  mkObjectAttributes (Some i) (UserStrings att).

(** Modelled from the spec: [att.SetUserString(key, value)], a per-key
    string tag; the key parameter is a string. *)
Definition SetUserString (att : ObjectAttributes) (key : json) (value : string)
  : res ObjectAttributes :=
  match key with
  | JStr k => Ok (mkObjectAttributes (LayerIndex att) (<[k := value]> (UserStrings att)))
  | _ => Raise TypeError
  end.

Definition float_of_Z (n : Z) : float :=
  SF2Prim (binary_normalize prec emax n 0 false).

(** Modelled from the spec: the conversion of an argument of
    [Point3d(x, y, z)] to a double; a coordinate is a Python [int] or
    [float]. *)
Definition to_double (v : json) : res float :=
  match v with
  | JInt n => Ok (float_of_Z n)
  | JFloat f => Ok f
  | _ => Raise TypeError
  end.

Definition new_Point3d (x y : json) (z : float) : res Point3d :=
  let? x := to_double x in
  let? y := to_double y in
  Ok (mkPoint3d x y z).

(** Modelled from the spec: [Curve.CreateControlPointCurve(points, degree)],
    the curve through the given control points.  Curve construction from
    degenerate input is the host's failure: from fewer than two points it
    builds no curve and hands back none ([None]). *)
Definition CreateControlPointCurve (points : list Point3d) (degree : Z)
  : option Curve :=
  if (length points <? 2)%nat then None else Some (mkCurve points degree).

(** ** The module *)

(** What an add-operation hands back: one identifier, or a list of them.
    An identifier is that of an object or [Guid.Empty] ([VEmpty], and [None]
    in a list). *)
Inductive value : Type :=
| VGuid (g : Guid)
| VEmpty
| VList (gs : list (option Guid)).

Class Returned (R : Type) : Type := as_value : R -> value.
#[global] Instance Returned_Guid : Returned Guid := VGuid.
#[global] Instance Returned_Guid_or_Empty : Returned (option Guid) :=
  fun g => match g with Some g => VGuid g | None => VEmpty end.
#[global] Instance Returned_list : Returned (list Guid) :=
  fun gs => VList (map Some gs).
#[global] Instance Returned_list_or_Empty : Returned (list (option Guid)) := VList.

(** [addRhinoLayer], lines 66-78. *)
Definition addRhinoLayer (layerName : string) (layerColor : Drawing.Color) : M Z :=
  let* layerIndex := Layers_Find layerName true in
  if layerIndex =? -1 then
    Layers_Add layerName layerColor
  else
    let* layer := Layers_item layerIndex in
    let* _ := (if decide (Color layer <> layerColor)
               then Layer_set_Color layerIndex layerColor
               else ret tt) in
    ret layerIndex.

(** *** Converters, lines 80-115

    A converted curve is what the host's curve construction handed back: a
    curve, or [None] when it built none. *)

Definition PointToRhinoPoint (coordinates : json) : res Point3d :=
  let? x := subscript coordinates (JInt 0) in
  let? y := subscript coordinates (JInt 1) in
  let z := 0%float in
  new_Point3d x y z.

Definition MultiPointToRhinoPoint (coordinates : json) : res (list Point3d) :=
  let? pairs := iter coordinates in
  for_res pairs
    (fun pair rhPointList =>
       let? p := PointToRhinoPoint pair in Ok (rhPointList ++ [p]))
    [].

Definition LineStringToRhinoCurve (coordinates : json) : res (option Curve) :=
  let? rhPoints := MultiPointToRhinoPoint coordinates in
  Ok (CreateControlPointCurve rhPoints 1).

Definition MultiLineStringToRhinoCurve (coordinates : json)
  : res (list (option Curve)) :=
  let? lineStrings := iter coordinates in
  for_res lineStrings
    (fun lineString rhCurveList =>
       let? c := LineStringToRhinoCurve lineString in Ok (rhCurveList ++ [c]))
    [].

Definition PolygonToRhinoCurve (coordinates : json)
  : res (list (option Curve)) :=
  let? rings := iter coordinates in
  for_res rings
    (fun ring ringList =>
       let? c := LineStringToRhinoCurve ring in Ok (ringList ++ [c]))
    [].

Definition MultiPolygonToRhinoCurve (coordinates : json)
  : res (list (list (option Curve))) :=
  let? polygons := iter coordinates in
  for_res polygons
    (fun polygon polygonList =>
       let? p := PolygonToRhinoCurve polygon in Ok (polygonList ++ [p]))
    [].

(** [pass]: the call returns [None]. *)
Definition GeometryCollectionToParser (geometries : json) : unit := tt.

(** *** Add-operations, lines 117-143 *)

Definition addPoint (rhPoint : Point3d) (objAtt : ObjectAttributes) : M Guid :=
  Objects_AddPoint rhPoint objAtt.

Definition addPoints (rhPoints : list Point3d) (objAtt : ObjectAttributes)
  : M (list Guid) :=
  Objects_AddPoints rhPoints objAtt.

Definition addCurve (rhCurve : option Curve) (objAtt : ObjectAttributes)
  : M (option Guid) :=
  Objects_AddCurve rhCurve objAtt.

Definition addCurves (rhCurves : list (option Curve)) (objAtt : ObjectAttributes)
  : M (list (option Guid)) :=
  for_each rhCurves
    (fun curve guidList =>
       let* g := addCurve curve objAtt in ret (guidList ++ [g]))
    [].

Definition addPolygon (ringList : list (option Curve)) (objAtt : ObjectAttributes)
  : M (list (option Guid)) :=
  addCurves ringList objAtt.

Definition addPolygons (polygonList : list (list (option Curve)))
    (objAtt : ObjectAttributes) : M (list (option Guid)) :=
  for_each polygonList
    (fun polygon guidList =>
       let* gs := addPolygon polygon objAtt in ret (guidList ++ gs))
    [].

(** *** The converter table, lines 145-153

    Six entries are (converter, add-operation) pairs; the seventh is written
    [(GeometryCollectionToParser)], which is the function itself and no
    tuple. *)

Inductive entry : Type :=
| Tuple {T R : Type} `{Returned R}
    (convert : json -> res T) (add : T -> ObjectAttributes -> M R)
| Function (f : json -> unit).

Definition geoJsonGeometryMap : list (string * entry) :=
  [ ("Point", Tuple PointToRhinoPoint addPoint);
    ("MultiPoint", Tuple MultiPointToRhinoPoint addPoints);
    ("LineString", Tuple LineStringToRhinoCurve addCurve);
    ("MultiLineString", Tuple MultiLineStringToRhinoCurve addCurves);
    ("Polygon", Tuple PolygonToRhinoCurve addPolygon);
    ("MultiPolygon", Tuple MultiPolygonToRhinoCurve addPolygons);
    ("GeometryCollection", Function GeometryCollectionToParser) ].

Section Functions.

Context `{PythonRuntime}.

(** Lines 169-171: the layer, when one is requested.  [addRhinoLayer]
    hands the name to the host, which takes a string. *)
Definition processGeoJson_layer (destinationLayer : json)
    (destinationLayerColor : Drawing.Color) (att : ObjectAttributes)
  : M ObjectAttributes :=
  match destinationLayer with
  | JNull => ret att
  | JStr layerName =>
      let* i := addRhinoLayer layerName destinationLayerColor in
      ret (set_LayerIndex att i)
  | _ => raise TypeError
  end.

(** Lines 174-177: the properties, copied as user strings. *)
Definition processGeoJson_properties (jsonFeature : json) (att : ObjectAttributes)
  : res ObjectAttributes :=
  let? cond := subscript jsonFeature (JStr "properties") in
  if truthy cond then
    let? properties := subscript jsonFeature (JStr "properties") in
    let? keys := iter properties in
    for_res keys
      (fun key att =>
         let? v := subscript properties key in
         SetUserString att key (str v))
      att
  else Ok att.

(** Lines 180-188: the geometry, converted and added; the value is what
    [guidResults.append] receives.  Both subscripts of the table read the
    same entry, and [entry[0]] on a function is a type error. *)
Definition processGeoJson_geometry (jsonFeature : json) (att : ObjectAttributes)
  : M value :=
  let* geom := lift (subscript jsonFeature (JStr "geometry")) in
  let* geomType := lift (subscript geom (JStr "type")) in
  let* coordinates := lift (subscript geom (JStr "coordinates")) in
  let* e := lift (dict_subscript geoJsonGeometryMap geomType) in
  match e with
  | Tuple convert add =>
      let* rhFeature := lift (convert coordinates) in
      let* r := add rhFeature att in
      ret (as_value r)
  | Function _ => raise TypeError
  end.

(** The body of the loop over the features, lines 164-188. *)
Definition processGeoJson_feature (destinationLayer : json)
    (destinationLayerColor : Drawing.Color)
    (jsonFeature : json) (guidResults : list value) : M (list value) :=
  let att := new_ObjectAttributes in
  let* att := processGeoJson_layer destinationLayer destinationLayerColor att in
  let* att := lift (processGeoJson_properties jsonFeature att) in
  let* v := processGeoJson_geometry jsonFeature att in
  ret (guidResults ++ [v]).

(** [processGeoJson], lines 156-191; [destinationLayer=None] is [JNull]. *)
Definition processGeoJson (parsedGeoJson : json) (destinationLayer : json)
    (destinationLayerColor : Drawing.Color) : M (list value) :=
  let* jsonFeatures := lift (subscript parsedGeoJson (JStr "features")) in
  let* features := lift (iter jsonFeatures) in
  for_each features
    (processGeoJson_feature destinationLayer destinationLayerColor) [].

(** [load], lines 193-198. *)
Definition load (rawGeoJsonData : string) (destinationLayer : json)
    (destinationLayerColor : Drawing.Color) : M (list value) :=
  let* geoJson := lift (json_loads rawGeoJsonData) in
  processGeoJson geoJson JNull Drawing.Black.

(** [loadLayers], lines 200-224.  A Python [str] is [JStr], a [dict] is
    [JObj]; with any other argument [layersJson] is never bound. *)
Definition loadLayers (rawJsonData : json) : M (list (list value)) :=
  let* layersJson :=
    match rawJsonData with
    | JStr text => lift (json_loads text)
    | JObj _ => ret rawJsonData
    | _ => raise (UnboundLocalError "layersJson")
    end in
  let* layerKeys := lift (iter layersJson) in
  for_each layerKeys
    (fun layerKey allResults =>
       let* collection := lift (subscript layersJson layerKey) in
       let* layerResults := processGeoJson collection layerKey Drawing.Black in
       ret (allResults ++ [layerResults]))
    [].
End Functions.

(** ** Worked inputs *)

(** A [str] to run the module with: Python's on [None], booleans, integers,
    strings and the float 0.0, and a placeholder on other floats and on
    containers. *)
Definition sample_str (v : json) : string :=
  match v with
  | JNull => "None"
  | JBool true => "True"
  | JBool false => "False"
  | JInt n => pretty n
  | JFloat f => if PrimFloat.Leibniz.eqb f 0%float then "0.0" else "<float>"
  | JStr s => s
  | JArr _ => "<list>"
  | JObj _ => "<dict>"
  end.

Definition feature (geomType : string) (coordinates : json)
    (properties : list (string * json)) : json :=
  JObj [ ("type", JStr "Feature");
         ("geometry", JObj [("type", JStr geomType); ("coordinates", coordinates)]);
         ("properties", JObj properties) ].

Definition featureCollection (features : list json) : json :=
  JObj [ ("type", JStr "FeatureCollection"); ("features", JArr features) ].

Definition position (x y : float) : json := JArr [JFloat x; JFloat y].

(** The collection of the module's docstring, lines 17-49. *)
Definition myFeatures : list json :=
  [ feature "Point" (position 102 0.5) [("prop0", JStr "value0")];
    feature "LineString"
      (JArr [position 102 0; position 103 1; position 104 0; position 105 1])
      [("prop0", JStr "value0"); ("prop1", JFloat 0)];
    feature "Polygon"
      (JArr [JArr [position 100 0; position 101 0; position 101 1;
                   position 100 1; position 100 0]])
      [("prop0", JStr "value0"); ("prop1", JObj [("this", JStr "that")])] ].

Definition myGeoJson : json := featureCollection myFeatures.

Definition empty_document : Document := mkDocument [] [].

(** A feature holding a GeometryCollection as GeoJSON writes it (with
    [geometries], without [coordinates]), and one that also has a
    [coordinates] entry. *)
Definition geometryCollectionFeature : json :=
  JObj [ ("type", JStr "Feature");
         ("geometry",
          JObj [ ("type", JStr "GeometryCollection");
                 ("geometries",
                  JArr [JObj [("type", JStr "Point");
                              ("coordinates", position 102 0.5)]]) ]);
         ("properties", JObj []) ].

Definition geometryCollectionWithCoordinates : json :=
  feature "GeometryCollection" (JArr []) [].

(** A feature of a kind the table does not have. *)
Definition circleFeature : json := feature "Circle" (position 0 0) [].

(** A feature of such a kind without coordinates: a circle given by its
    center and radius. *)
Definition circleByCenter : json :=
  JObj [ ("type", JStr "Feature");
         ("geometry",
          JObj [ ("type", JStr "Circle");
                 ("center", position 0 0);
                 ("radius", JFloat 1) ]);
         ("properties", JObj []) ].

Definition prop1Feature : json :=
  feature "Point" (position 102 0.5) [("prop1", JFloat 0)].

Definition bareFeature : json := feature "Point" (position 102 0.5) [].

Definition square : json :=
  JArr [position 100 0; position 101 0; position 101 1; position 100 1;
        position 100 0].

(** The positions of the docstring's LineString. *)
Definition linePositions : list json :=
  [position 102 0; position 103 1; position 104 0; position 105 1].

(** Two polygons: one with a hole (two rings), one without. *)
Definition samplePolygons : list json :=
  [ JArr [square; square]; JArr [square] ].

(** A layers mapping whose one collection has no feature. *)
Definition emptyLayer : json := JObj [ ("empty", featureCollection []) ].

(** A layers mapping of two collections. *)
Definition twoLayers : list (string * json) :=
  [ ("roads", myGeoJson); ("rivers", featureCollection [bareFeature]) ].

Definition roadsDocument : Document :=
  mkDocument [ mkLayer "base" Drawing.Black;
               mkLayer "roads" (Drawing.FromArgb 255 255 0 0) ] [].

(** A runtime to run the module on: [sample_str], and a decoder that knows
    the texts of [sample_texts]. *)
Definition sample_texts : list (string * json) :=
  [ ("myGeoJson", myGeoJson); ("twoLayers", JObj twoLayers) ].

Definition sample_loads (text : string) : res json :=
  match dict_get sample_texts text with
  | Some v => Ok v
  | None => Raise ValueError
  end.

Definition sample_runtime : PythonRuntime :=
  {| str := sample_str; json_loads := sample_loads |}.

(** ** Vocabulary of the statements *)

(** [destinationLayer] as a caller gives it: [None] or a layer name. *)
Definition layer_arg (destinationLayer : option string) : json :=
  match destinationLayer with
  | None => JNull
  | Some layerName => JStr layerName
  end.

(** The shapes of the coordinate payloads, by geometry kind. *)
Definition is_number (v : json) : bool :=
  match v with JInt _ | JFloat _ => true | _ => false end.

Definition is_position (v : json) : bool :=
  match v with
  | JArr (x :: y :: _) => is_number x && is_number y
  | _ => false
  end.

Definition is_array_of (p : json -> bool) (v : json) : bool :=
  match v with JArr items => forallb p items | _ => false end.

Definition is_line : json -> bool := is_array_of is_position.
Definition is_rings : json -> bool := is_array_of is_line.
Definition is_polygons : json -> bool := is_array_of is_rings.

Definition single_kind (geomType : string) : bool :=
  String.eqb geomType "Point" || String.eqb geomType "LineString".

Definition supported_coordinates (geomType : string) (c : json) : bool :=
  if String.eqb geomType "Point" then is_position c
  else if String.eqb geomType "MultiPoint" || String.eqb geomType "LineString"
  then is_line c
  else if String.eqb geomType "MultiLineString" || String.eqb geomType "Polygon"
  then is_rings c
  else if String.eqb geomType "MultiPolygon" then is_polygons c
  else false.

(** A properties entry the copying loop accepts: present, and either falsy
    (skipped) or a dict. *)
Definition usable_properties (jsonFeature : json) : bool :=
  match subscript jsonFeature (JStr "properties") with
  | Ok (JObj _) => true
  | Ok p => negb (truthy p)
  | Raise _ => false
  end.

Definition geometry_type (jsonFeature : json) : option string :=
  match subscript jsonFeature (JStr "geometry") with
  | Ok geom => match subscript geom (JStr "type") with
               | Ok (JStr t) => Some t
               | _ => None
               end
  | Raise _ => None
  end.

(** A feature of a supported geometry kind: usable properties, and a
    geometry whose tag is one of the six converted kinds with a payload of
    that kind's shape. *)
Definition supported_feature (jsonFeature : json) : bool :=
  usable_properties jsonFeature &&
  match subscript jsonFeature (JStr "geometry") with
  | Ok geom =>
      match subscript geom (JStr "type"), subscript geom (JStr "coordinates") with
      | Ok (JStr t), Ok c => supported_coordinates t c
      | _, _ => false
      end
  | Raise _ => false
  end.

(** Results: a flat list holds identifiers only. *)
Definition is_identifier (v : value) : bool :=
  match v with VGuid _ | VEmpty => true | VList _ => false end.

Definition flat (guidResults : list value) : bool := forallb is_identifier guidResults.

(** The identifiers of objects in a value: [Guid.Empty] names none. *)
Definition identifiers_of (v : value) : list Guid :=
  match v with VGuid g => [g] | VEmpty => [] | VList gs => omap id gs end.

Definition identifiers (guidResults : list value) : list Guid :=
  concat (map identifiers_of guidResults).

(** The entry of one feature in the result: one identifier for the
    single-object kinds, a list of identifiers for the others. *)
Definition entry_shape (jsonFeature : json) (v : value) : bool :=
  match geometry_type jsonFeature with
  | Some t => if single_kind t then is_identifier v else negb (is_identifier v)
  | None => false
  end.

(** The failure the dispatch gives for a tag the table does not have. *)
Definition unsupported_geometry_kind (geomType : string) : exn :=
  KeyError (JStr geomType).

(** Documents: [d'] is [d] with more objects, each satisfying [P]. *)
Definition grows (P : RhinoObject -> Prop) (d d' : Document) : Prop :=
  exists new, Objects d' = Objects d ++ new /\ Forall P new.

Definition layers_named (layerName : string) (d : Document) : list Layer :=
  filter (fun l => Name l = layerName) (Layers d).

(** [d'] is [d] with the same layers and more objects satisfying [P]. *)
Definition frame (P : RhinoObject -> Prop) (d d' : Document) : Prop :=
  Layers d' = Layers d /\ grows P d d'.

(** A computation stays within a relation between the document it starts
    from and the document it leaves, whether it returns or raises. *)
Definition within (R : Document -> Document -> Prop) {A} (m : M A) : Prop :=
  forall d, R d (m d).2.

(** The objects a list of converted curves gives: one per curve built. *)
Definition curve_geometry (rhCurves : list (option Curve)) : list Geometry :=
  map GCurve (omap id rhCurves).

(** The identifiers [addCurves] hands back from a document holding [next]
    objects: the next free identifier for each curve, [Guid.Empty] where
    there is none. *)
Fixpoint curve_ids (next : nat) (rhCurves : list (option Curve))
  : list (option Guid) :=
  match rhCurves with
  | [] => []
  | Some _ :: rest => Some next :: curve_ids (S next) rest
  | None :: rest => None :: curve_ids next rest
  end.

(** A value without [Guid.Empty]: every identifier names an object. *)
Definition names_objects (v : value) : bool :=
  match v with
  | VGuid _ => true
  | VEmpty => false
  | VList gs => forallb (fun g => match g with Some _ => true | None => false end) gs
  end.

(** The contract of an add-operation: it returns, it adds the objects
    [geometry] gives for what it was handed, under the attributes it was
    given, and nothing else; the identifiers it hands back are those of the
    objects it added, in order. *)
Definition adds {T R} `{Returned R} (geometry : T -> list Geometry)
    (add : T -> ObjectAttributes -> M R) : Prop :=
  forall rh att d, exists r,
    add rh att d
    = (Ok r, mkDocument (Layers d)
               (Objects d ++ map (fun g => mkRhinoObject g att) (geometry rh))) /\
    identifiers_of (as_value r) = seq (length (Objects d)) (length (geometry rh)).

Definition entry_adds (e : entry) : Prop :=
  match e with
  | Tuple _ add => exists geometry, adds geometry add
  | Function _ => True
  end.

(** Payloads the host builds curves from: lines of at least two positions. *)
Definition is_path (v : json) : bool :=
  match v with
  | JArr positions => forallb is_position positions && (2 <=? length positions)%nat
  | _ => false
  end.

Definition is_paths : json -> bool := is_array_of is_path.

(** The objects the geometry of a feature stands for: what the converter of
    its kind gives on the payload, one point object per point and one curve
    object per curve built.  There are none ([Raise]) where the kind has no
    converter or the converter fails. *)
Definition geometry_objects (geomType : string) (c : json) : res (list Geometry) :=
  if String.eqb geomType "Point" then
    let? p := PointToRhinoPoint c in Ok [GPoint p]
  else if String.eqb geomType "MultiPoint" then
    let? ps := MultiPointToRhinoPoint c in Ok (map GPoint ps)
  else if String.eqb geomType "LineString" then
    let? curve := LineStringToRhinoCurve c in Ok (curve_geometry [curve])
  else if String.eqb geomType "MultiLineString" then
    let? curves := MultiLineStringToRhinoCurve c in Ok (curve_geometry curves)
  else if String.eqb geomType "Polygon" then
    let? rings := PolygonToRhinoCurve c in Ok (curve_geometry rings)
  else if String.eqb geomType "MultiPolygon" then
    let? polygons := MultiPolygonToRhinoCurve c in
    Ok (curve_geometry (concat polygons))
  else Raise (KeyError (JStr geomType)).

Definition feature_objects (jsonFeature : json) : res (list Geometry) :=
  let? geom := subscript jsonFeature (JStr "geometry") in
  let? geomType := subscript geom (JStr "type") in
  let? c := subscript geom (JStr "coordinates") in
  match geomType with
  | JStr t => geometry_objects t c
  | _ => Raise TypeError
  end.

(** A feature every object of which the host builds: a supported kind
    whose lines and rings have at least two positions each. *)
Definition built_coordinates (geomType : string) (c : json) : bool :=
  if String.eqb geomType "Point" then is_position c
  else if String.eqb geomType "MultiPoint" then is_line c
  else if String.eqb geomType "LineString" then is_path c
  else if String.eqb geomType "MultiLineString" || String.eqb geomType "Polygon"
  then is_paths c
  else if String.eqb geomType "MultiPolygon" then is_array_of is_paths c
  else false.

Definition built_feature (jsonFeature : json) : bool :=
  match subscript jsonFeature (JStr "geometry") with
  | Ok geom =>
      match subscript geom (JStr "type"), subscript geom (JStr "coordinates") with
      | Ok (JStr t), Ok c => built_coordinates t c
      | _, _ => false
      end
  | Raise _ => false
  end.

(** [d'] has the layers of [d], by name and position, and maybe more. *)
Definition names_kept (d d' : Document) : Prop :=
  exists more, map Name (Layers d') = map Name (Layers d) ++ more.

Definition has_layer (layerName : string) (d : Document) : Prop :=
  layerName ∈ map Name (Layers d).

(** The features of a collection, and collections whose features are all of
    supported kinds. *)
Definition collection_features (collection : json) : list json :=
  match subscript collection (JStr "features") with
  | Ok (JArr features) => features
  | _ => []
  end.

Definition supported_collection (collection : json) : bool :=
  match subscript collection (JStr "features") with
  | Ok (JArr features) => forallb supported_feature features
  | _ => false
  end.

(** Rings per polygon of a MultiPolygon payload. *)
Definition ring_count (polygon : json) : nat :=
  match polygon with JArr rings => length rings | _ => 0%nat end.

(** * Properties *)

(** ** Sequencing *)

Lemma bind_Ok {A B} (m : M A) (k : A -> M B) d a d' :
  m d = (Ok a, d') -> bind m k d = k a d'.
Proof. unfold bind. intros ->. reflexivity. Qed.

Lemma bind_Raise {A B} (m : M A) (k : A -> M B) d e d' :
  m d = (Raise e, d') -> bind m k d = (Raise e, d').
Proof. unfold bind. intros ->. reflexivity. Qed.

Lemma bind_lift_Ok {A B} (r : res A) (k : A -> M B) d a :
  r = Ok a -> bind (lift r) k d = k a d.
Proof. intros ->. reflexivity. Qed.

Lemma bind_lift_Raise {A B} (r : res A) (k : A -> M B) d e :
  r = Raise e -> bind (lift r) k d = (Raise e, d).
Proof. intros ->. reflexivity. Qed.

Lemma for_each_app {A S} (xs ys : list A) (body : A -> S -> M S) acc d acc' d' :
  for_each xs body acc d = (Ok acc', d') ->
  for_each (xs ++ ys) body acc d = for_each ys body acc' d'.
Proof.
  revert acc d. induction xs as [|x xs IH]; intros acc d; simpl.
  - unfold ret. intros [= <- <-]. reflexivity.
  - unfold bind. destruct (body x acc d) as [[a|e] d1]; [apply IH | discriminate].
Qed.


(** A loop that appends one converted item per element is a map that stops
    at the first exception. *)
Lemma for_res_append {A B} (f : A -> res B) (xs : list A) (ys acc : list B) :
  Forall2 (fun x y => f x = Ok y) xs ys ->
  for_res xs (fun x acc => let? y := f x in Ok (acc ++ [y])) acc = Ok (acc ++ ys).
Proof.
  intros HF. revert acc. induction HF as [|x y xs ys Hxy _ IH]; intros acc; simpl.
  - by rewrite app_nil_r.
  - rewrite Hxy. simpl. rewrite IH, <- app_assoc. reflexivity.
Qed.

Lemma Forall_ok_Forall2 {A B} (f : A -> res B) (xs : list A) :
  Forall (fun x => exists y, f x = Ok y) xs ->
  exists ys, Forall2 (fun x y => f x = Ok y) xs ys.
Proof.
  induction 1 as [|x xs [y Hy] _ [ys IH]].
  - exists []. constructor.
  - exists (y :: ys). by constructor.
Qed.

(** ** Subscripts *)

Lemma seq_get_nat {A} (l : list A) (n : nat) : seq_get l (Z.of_nat n) = l !! n.
Proof.
  unfold seq_get.
  destruct (Z.ltb_spec (Z.of_nat n) 0) as [?|_]; [lia|].
  destruct (Z.leb_spec 0 (Z.of_nat n)) as [_|?]; [|lia].
  destruct (Z.ltb_spec (Z.of_nat n) (Z.of_nat (length l))) as [?|Hge]; simpl.
  - by rewrite Nat2Z.id.
  - symmetry. apply lookup_ge_None. lia.
Qed.

Lemma subscript_arr_0 x rest : subscript (JArr (x :: rest)) (JInt 0) = Ok x.
Proof.
  unfold subscript, seq_item. change 0 with (Z.of_nat 0).
  rewrite seq_get_nat. reflexivity.
Qed.

Lemma subscript_arr_1 x y rest : subscript (JArr (x :: y :: rest)) (JInt 1) = Ok y.
Proof.
  unfold subscript, seq_item. change 1 with (Z.of_nat 1).
  rewrite seq_get_nat. reflexivity.
Qed.

(** ** Points *)

Lemma PointToRhinoPoint_pair (x y : json) (rest : list json) :
  PointToRhinoPoint (JArr (x :: y :: rest)) = new_Point3d x y 0%float.
Proof.
  unfold PointToRhinoPoint.
  rewrite subscript_arr_0, subscript_arr_1. reflexivity.
Qed.

(** C5. For a coordinate payload whose first two elements are the numbers
    x and y, [PointToRhinoPoint] produces the point (x, y, 0): whatever
    follows the first two elements is ignored, and the elevation is the
    constant zero. *)
Theorem PointToRhinoPoint_xy0 (x y : json) (rest : list json) (fx fy : float) :
  to_double x = Ok fx ->
  to_double y = Ok fy ->
  PointToRhinoPoint (JArr (x :: y :: rest)) = Ok (mkPoint3d fx fy 0%float).
Proof.
  intros Hx Hy. rewrite PointToRhinoPoint_pair.
  unfold new_Point3d. rewrite Hx, Hy. reflexivity.
Qed.

Lemma PointToRhinoPoint_xy0_witness :
  PointToRhinoPoint (JArr [JFloat 102; JInt 0; JFloat 7])
  = Ok (mkPoint3d 102 0 0).
Proof.
  apply (PointToRhinoPoint_xy0 (JFloat 102) (JInt 0) [JFloat 7] 102%float 0%float);
    reflexivity.
Defined.

(** ** The object table *)

Lemma add_loop {T} (mk : T -> Geometry) (xs : list T) att acc d :
  for_each xs
    (fun x ids => let* g := Objects_Add (mk x) att in ret (ids ++ [g])) acc d
  = (Ok (acc ++ seq (length (Objects d)) (length xs)),
     mkDocument (Layers d)
       (Objects d ++ map (fun x => mkRhinoObject (mk x) att) xs)).
Proof.
  revert acc d. induction xs as [|x xs IH]; intros acc d.
  - simpl. rewrite !app_nil_r. destruct d. reflexivity.
  - cbn [for_each]. unfold bind at 1. unfold bind at 1.
    unfold Objects_Add at 1. unfold ret at 1. rewrite IH. cbn [Layers Objects].
    rewrite length_app, Nat.add_1_r, <- !app_assoc. reflexivity.
Qed.

Lemma addPoints_run (rhPoints : list Point3d) att d :
  addPoints rhPoints att d
  = (Ok (seq (length (Objects d)) (length rhPoints)),
     mkDocument (Layers d)
       (Objects d ++ map (fun p => mkRhinoObject (GPoint p) att) rhPoints)).
Proof. apply (add_loop GPoint rhPoints att []). Qed.

Lemma curve_geometry_app a b :
  curve_geometry (a ++ b) = curve_geometry a ++ curve_geometry b.
Proof. unfold curve_geometry. by rewrite omap_app, map_app. Qed.

Lemma curve_ids_app next a b :
  curve_ids next (a ++ b)
  = curve_ids next a ++ curve_ids (next + length (curve_geometry a)) b.
Proof.
  revert next. induction a as [|[c|] a IH]; intros next; simpl.
  - by rewrite Nat.add_0_r.
  - rewrite IH. do 2 f_equal. unfold curve_geometry. simpl.
    by rewrite Nat.add_succ_r.
  - by rewrite IH.
Qed.

Lemma curve_ids_length next rhCurves :
  length (curve_ids next rhCurves) = length rhCurves.
Proof.
  revert next. induction rhCurves as [|[c|] cs IH]; intros next; simpl;
    [reflexivity | by rewrite IH | by rewrite IH].
Qed.

(** The identifiers other than [Guid.Empty] are consecutive, one per curve
    built. *)
Lemma curve_ids_objects next rhCurves :
  omap id (curve_ids next rhCurves)
  = seq next (length (curve_geometry rhCurves)).
Proof.
  revert next. induction rhCurves as [|[c|] cs IH]; intros next; simpl.
  - reflexivity.
  - unfold curve_geometry in *. simpl. by rewrite IH.
  - apply IH.
Qed.

Lemma curve_ids_built next (curves : list Curve) :
  curve_ids next (map Some curves) = map Some (seq next (length curves)).
Proof.
  revert next. induction curves as [|c cs IH]; intros next; simpl;
    [reflexivity | by rewrite IH].
Qed.

Lemma omap_built {A} (l : list A) : omap id (map Some l) = l.
Proof. induction l as [|x l IH]; simpl; [reflexivity | by f_equal]. Qed.

Lemma curve_geometry_built (curves : list Curve) :
  curve_geometry (map Some curves) = map GCurve curves.
Proof. unfold curve_geometry. by rewrite omap_built. Qed.

Lemma concat_built {A} (built : list (list A)) :
  concat (map (map Some) built) = map Some (concat built).
Proof.
  induction built as [|x xs IH]; simpl; [reflexivity|].
  by rewrite IH, map_app.
Qed.

Lemma addCurve_run (rhCurve : option Curve) att d :
  addCurve rhCurve att d
  = (Ok (match rhCurve with Some _ => Some (length (Objects d)) | None => None end),
     mkDocument (Layers d)
       (Objects d ++ map (fun g => mkRhinoObject g att) (curve_geometry [rhCurve]))).
Proof.
  destruct rhCurve as [c|]; [reflexivity|].
  unfold addCurve, Objects_AddCurve, ret. simpl. rewrite app_nil_r. by destruct d.
Qed.

Lemma addCurves_loop (rhCurves : list (option Curve)) att acc d :
  for_each rhCurves
    (fun curve guidList =>
       let* g := addCurve curve att in ret (guidList ++ [g])) acc d
  = (Ok (acc ++ curve_ids (length (Objects d)) rhCurves),
     mkDocument (Layers d)
       (Objects d ++ map (fun g => mkRhinoObject g att) (curve_geometry rhCurves))).
Proof.
  revert acc d. induction rhCurves as [|c cs IH]; intros acc d.
  - simpl. rewrite !app_nil_r. destruct d. reflexivity.
  - cbn [for_each].
    rewrite (bind_Ok _ _ _ _ _ (bind_Ok _ _ _ _ _ (addCurve_run c att d))).
    unfold ret at 1. rewrite IH. cbn [Layers Objects].
    rewrite length_app, length_map, <- !app_assoc, <- map_app.
    change (c :: cs) with ([c] ++ cs).
    by rewrite curve_ids_app, curve_geometry_app; destruct c.
Qed.

Lemma addCurves_run (rhCurves : list (option Curve)) att d :
  addCurves rhCurves att d
  = (Ok (curve_ids (length (Objects d)) rhCurves),
     mkDocument (Layers d)
       (Objects d ++ map (fun g => mkRhinoObject g att) (curve_geometry rhCurves))).
Proof. apply (addCurves_loop rhCurves att []). Qed.

Lemma addPolygons_loop (polygonList : list (list (option Curve))) att acc d :
  for_each polygonList
    (fun polygon guidList =>
       let* gs := addPolygon polygon att in ret (guidList ++ gs)) acc d
  = (Ok (acc ++ curve_ids (length (Objects d)) (concat polygonList)),
     mkDocument (Layers d)
       (Objects d ++ map (fun g => mkRhinoObject g att)
                       (curve_geometry (concat polygonList)))).
Proof.
  revert acc d. induction polygonList as [|rings rest IH]; intros acc d.
  - simpl. rewrite !app_nil_r. destruct d. reflexivity.
  - cbn [for_each]. unfold bind at 1. unfold bind at 1.
    unfold addPolygon at 1. rewrite addCurves_run. unfold ret at 1.
    rewrite IH. cbn [Layers Objects concat].
    by rewrite !length_app, length_map, curve_ids_app, curve_geometry_app,
      map_app, <- !app_assoc.
Qed.

Lemma addPolygons_run (polygonList : list (list (option Curve))) att d :
  addPolygons polygonList att d
  = (Ok (curve_ids (length (Objects d)) (concat polygonList)),
     mkDocument (Layers d)
       (Objects d ++ map (fun g => mkRhinoObject g att)
                       (curve_geometry (concat polygonList)))).
Proof. apply (addPolygons_loop polygonList att []). Qed.

(** ** Converters on payloads of the right shape *)

Lemma is_array_of_items p v :
  is_array_of p v = true -> exists items, v = JArr items /\ Forall (fun x => p x = true) items.
Proof.
  destruct v; try discriminate. simpl. intros HF. eexists; split; [reflexivity|].
  apply Forall_forall. intros x Hx. apply list_elem_of_In in Hx.
  rewrite forallb_forall in HF. auto.
Qed.

Lemma PointToRhinoPoint_position v :
  is_position v = true -> exists p, PointToRhinoPoint v = Ok p.
Proof.
  destruct v as [| | | | |[|x [|y rest]]|]; try discriminate. simpl.
  intros [Hx Hy]%andb_prop.
  assert (forall n, is_number n = true -> exists f, to_double n = Ok f) as Hnum.
  { intros [] ?; try discriminate; simpl; eauto. }
  destruct (Hnum x Hx) as [fx Hfx], (Hnum y Hy) as [fy Hfy].
  eexists. rewrite PointToRhinoPoint_pair. unfold new_Point3d.
  rewrite Hfx, Hfy. reflexivity.
Qed.

Lemma collect_items {B} (p : json -> bool) (f : json -> res B) v :
  (forall x, p x = true -> exists y, f x = Ok y) ->
  is_array_of p v = true ->
  exists items ys,
    v = JArr items /\ Forall2 (fun x y => f x = Ok y) items ys /\
    (let? items := iter v in
     for_res items (fun x acc => let? y := f x in Ok (acc ++ [y])) []) = Ok ys.
Proof.
  intros Hf (items & -> & Hitems)%is_array_of_items.
  destruct (Forall_ok_Forall2 f items) as [ys Hys].
  { eapply Forall_impl; [exact Hitems | exact Hf]. }
  exists items, ys. repeat split; [exact Hys|].
  simpl. by rewrite (for_res_append f items ys []).
Qed.

Lemma MultiPointToRhinoPoint_line v :
  is_line v = true -> exists ps, MultiPointToRhinoPoint v = Ok ps.
Proof.
  intros Hv.
  destruct (collect_items is_position PointToRhinoPoint v
              PointToRhinoPoint_position Hv) as (? & ps & _ & _ & Hrun).
  by exists ps.
Qed.

Lemma LineStringToRhinoCurve_line v :
  is_line v = true -> exists c, LineStringToRhinoCurve v = Ok c.
Proof.
  intros [ps Hps]%MultiPointToRhinoPoint_line.
  unfold LineStringToRhinoCurve. rewrite Hps. simpl. eauto.
Qed.

(** From two points on, the host builds the curve. *)
Lemma CreateControlPointCurve_built (points : list Point3d) degree :
  (2 <= length points)%nat ->
  CreateControlPointCurve points degree = Some (mkCurve points degree).
Proof.
  intros Hlen. unfold CreateControlPointCurve.
  destruct (Nat.ltb_spec (length points) 2); [lia | reflexivity].
Qed.

Lemma LineStringToRhinoCurve_path v :
  is_path v = true -> exists curve, LineStringToRhinoCurve v = Ok (Some curve).
Proof.
  destruct v as [| | | | |positions|]; try discriminate. unfold is_path.
  intros [Hall Hlen%Nat.leb_le]%andb_prop.
  destruct (collect_items is_position PointToRhinoPoint (JArr positions)
              PointToRhinoPoint_position Hall)
    as (items & ps & [= <-] & HF & Hrun).
  unfold LineStringToRhinoCurve, MultiPointToRhinoPoint. rewrite Hrun.
  cbn [res_bind]. rewrite CreateControlPointCurve_built; [eauto|].
  by rewrite <- (Forall2_length _ _ _ HF).
Qed.

Lemma PolygonToRhinoCurve_rings v :
  is_rings v = true ->
  exists ringList, PolygonToRhinoCurve v = Ok ringList /\
                   length ringList = ring_count v.
Proof.
  intros Hv.
  destruct (collect_items is_line LineStringToRhinoCurve v
              LineStringToRhinoCurve_line Hv) as (items & cs & -> & HF & Hrun).
  exists cs. split; [exact Hrun|]. simpl. symmetry. by eapply Forall2_length.
Qed.

Lemma MultiLineStringToRhinoCurve_rings v :
  is_rings v = true -> exists cs, MultiLineStringToRhinoCurve v = Ok cs.
Proof.
  intros [cs [Hcs _]]%PolygonToRhinoCurve_rings. by exists cs.
Qed.

(** A collecting loop whose every item converts to something built. *)
Lemma collect_built {A B} (g : A -> B) (Q : json -> A -> Prop)
    (f : json -> res B) (p : json -> bool) (items : list json) :
  (forall x, p x = true -> exists a, f x = Ok (g a) /\ Q x a) ->
  forallb p items = true ->
  exists built,
    for_res items (fun x acc => let? y := f x in Ok (acc ++ [y])) []
    = Ok (map g built) /\
    Forall2 Q items built.
Proof.
  intros Hf Hall.
  assert (exists built, Forall2 (fun x a => f x = Ok (g a) /\ Q x a) items built)
    as [built HF].
  { induction items as [|x xs IH]; [exists []; constructor|].
    simpl in Hall. apply andb_prop in Hall as [Hx Hxs].
    destruct (Hf x Hx) as [a Ha], (IH Hxs) as [built HF].
    exists (a :: built). by constructor. }
  exists built. split.
  - rewrite (for_res_append f items (map g built) []); [reflexivity|].
    apply Forall2_fmap_r. eapply Forall2_impl; [exact HF|]. by intros x a [? _].
  - eapply Forall2_impl; [exact HF|]. by intros x a [_ ?].
Qed.

Lemma PolygonToRhinoCurve_paths (rings : list json) :
  forallb is_path rings = true ->
  exists curves : list Curve,
    PolygonToRhinoCurve (JArr rings) = Ok (map Some curves) /\
    length curves = length rings.
Proof.
  intros Hall.
  destruct (collect_built Some (fun _ _ => True) LineStringToRhinoCurve
              is_path rings) as (curves & Hrun & HF); [|exact Hall|].
  { intros x [curve Hx]%LineStringToRhinoCurve_path. eauto. }
  exists curves. split; [exact Hrun|]. symmetry. by eapply Forall2_length.
Qed.

Lemma ring_total {A} (polygons : list json) (polygonList : list (list A)) :
  Forall2 (fun polygon ringList => length ringList = ring_count polygon)
    polygons polygonList ->
  length (concat polygonList) = sum_list (map ring_count polygons).
Proof.
  induction 1 as [|polygon ringList ? ? Hlen _ IH]; simpl; [reflexivity|].
  rewrite length_app, Hlen, IH. reflexivity.
Qed.

Lemma MultiPolygonToRhinoCurve_polygons (polygons : list json) :
  forallb is_rings polygons = true ->
  exists polygonList,
    MultiPolygonToRhinoCurve (JArr polygons) = Ok polygonList /\
    length (concat polygonList) = sum_list (map ring_count polygons).
Proof.
  intros Hv.
  destruct (collect_built id
              (fun polygon ringList => length ringList = ring_count polygon)
              PolygonToRhinoCurve is_rings polygons) as (pl & Hrun & HF);
    [|exact Hv|].
  { intros x (r & Hr & Hlen)%PolygonToRhinoCurve_rings. eauto. }
  exists pl. rewrite map_id in Hrun. split; [exact Hrun|]. by apply ring_total.
Qed.

Lemma MultiPolygonToRhinoCurve_paths (polygons : list json) :
  forallb is_paths polygons = true ->
  exists built : list (list Curve),
    MultiPolygonToRhinoCurve (JArr polygons) = Ok (map (map Some) built) /\
    length (concat built) = sum_list (map ring_count polygons).
Proof.
  intros Hv.
  destruct (collect_built (map Some)
              (fun polygon (curves : list Curve) =>
                 length curves = ring_count polygon)
              PolygonToRhinoCurve is_paths polygons) as (built & Hrun & HF);
    [|exact Hv|].
  { intros x (rings & -> & Hrings)%is_array_of_items.
    destruct (PolygonToRhinoCurve_paths rings) as (curves & Hc & Hlen); [|eauto].
    apply forallb_forall. intros r Hr%list_elem_of_In.
    rewrite Forall_forall in Hrings. auto. }
  exists built. split; [exact Hrun|]. by apply ring_total.
Qed.

(** ** Polygons *)

(** C6. A MultiPolygon payload of m polygons, polygon i having k_i rings,
    converted by [MultiPolygonToRhinoCurve] and added by [addPolygons],
    yields an identifier list whose length is the sum of the k_i, flattened
    across the polygons; the document gains one object per identifier other
    than [Guid.Empty].  When every ring has at least two positions, so that
    the host builds a curve from it, no identifier is [Guid.Empty]: they are
    the next sum-of-k_i identifiers, and the document gains one curve object
    per ring. *)
Theorem MultiPolygon_identifier_count (polygons : list json)
    (att : ObjectAttributes) (d : Document) :
  forallb is_rings polygons = true ->
  exists polygonList guidList d',
    MultiPolygonToRhinoCurve (JArr polygons) = Ok polygonList /\
    addPolygons polygonList att d = (Ok guidList, d') /\
    length guidList = sum_list (map ring_count polygons) /\
    length (Objects d') = (length (Objects d) + length (omap id guidList))%nat /\
    (forallb is_paths polygons = true ->
     guidList
     = map Some (seq (length (Objects d)) (sum_list (map ring_count polygons))) /\
     length (Objects d')
     = (length (Objects d) + sum_list (map ring_count polygons))%nat).
Proof.
  intros Hv.
  destruct (MultiPolygonToRhinoCurve_polygons polygons Hv) as (pl & Hpl & Hsum).
  exists pl. eexists. eexists. split; [exact Hpl|].
  split; [apply addPolygons_run|].
  cbn [Objects]. rewrite curve_ids_length, curve_ids_objects, length_seq,
    length_app, length_map.
  split; [exact Hsum|]. split; [reflexivity|].
  intros Hpaths.
  destruct (MultiPolygonToRhinoCurve_paths polygons Hpaths)
    as (built & Hbuilt & Hsum').
  assert (pl = map (map Some) built) as -> by congruence.
  rewrite concat_built, curve_ids_built, curve_geometry_built, length_map, Hsum'.
  by split.
Qed.

(** ** The layer table *)

Lemma find_layer_None layerName (layers : list Layer) :
  find_layer layerName layers = None ->
  filter (fun l => Name l = layerName) layers = [].
Proof.
  induction layers as [|l rest IH]; simpl; [reflexivity|].
  destruct (String.eqb_spec (Name l) layerName) as [|Hne]; [discriminate|].
  destruct (find_layer layerName rest); [discriminate|]. intros _.
  rewrite filter_cons_False by exact Hne. by apply IH.
Qed.

Lemma find_layer_Some layerName (layers : list Layer) i :
  find_layer layerName layers = Some i ->
  exists pre l post,
    layers = pre ++ l :: post /\ length pre = i /\ Name l = layerName /\
    filter (fun l => Name l = layerName) pre = [].
Proof.
  revert i. induction layers as [|l rest IH]; intros i; simpl; [discriminate|].
  destruct (String.eqb_spec (Name l) layerName) as [Heq|Hne].
  - intros [= <-]. exists [], l, rest. auto.
  - destruct (find_layer layerName rest) as [j|]; [|discriminate].
    intros [= <-]. destruct (IH j eq_refl) as (pre & l' & post & -> & <- & Hn & Hpre).
    exists (l :: pre), l', post. repeat split; [exact Hn|].
    rewrite filter_cons_False by exact Hne. exact Hpre.
Qed.

Lemma find_layer_middle layerName (pre post : list Layer) l :
  Name l = layerName ->
  filter (fun l => Name l = layerName) pre = [] ->
  find_layer layerName (pre ++ l :: post) = Some (length pre).
Proof.
  intros Hl. induction pre as [|p pre IH]; simpl.
  - intros _. destruct (String.eqb_spec (Name l) layerName); [reflexivity|contradiction].
  - destruct (String.eqb_spec (Name p) layerName) as [Heq|Hne].
    + rewrite filter_cons_True by exact Heq. discriminate.
    + rewrite filter_cons_False by exact Hne. intros Hpre. by rewrite IH.
Qed.

(** The name is new: the layer is added last. *)
Lemma addRhinoLayer_new layerName layerColor d :
  find_layer layerName (Layers d) = None ->
  addRhinoLayer layerName layerColor d
  = (Ok (Z.of_nat (length (Layers d))),
     mkDocument (Layers d ++ [mkLayer layerName layerColor]) (Objects d)).
Proof.
  intros Hfind. unfold addRhinoLayer, bind, Layers_Find. rewrite Hfind.
  reflexivity.
Qed.

(** The name exists: its first layer takes the color, and no layer is added. *)
Lemma addRhinoLayer_existing layerName layerColor d pre l post :
  Layers d = pre ++ l :: post ->
  Name l = layerName ->
  filter (fun l => Name l = layerName) pre = [] ->
  addRhinoLayer layerName layerColor d
  = (Ok (Z.of_nat (length pre)),
     mkDocument (pre ++ mkLayer layerName layerColor :: post) (Objects d)).
Proof.
  intros Hd Hl Hpre. unfold addRhinoLayer, bind at 1, Layers_Find.
  rewrite Hd, (find_layer_middle layerName pre post l Hl Hpre).
  destruct (Z.eqb_spec (Z.of_nat (length pre)) (-1)) as [?|_]; [lia|].
  unfold bind at 1, Layers_item.
  destruct (Z.ltb_spec (Z.of_nat (length pre)) 0) as [?|_]; [lia|].
  rewrite Nat2Z.id, Hd, list_lookup_middle by reflexivity.
  destruct (decide (Color l <> layerColor)) as [Hc|Hc].
  - unfold bind, Layer_set_Color, ret. rewrite Nat2Z.id, Hd.
    replace (length pre) with (length pre + 0)%nat at 2 by lia.
    rewrite alter_app_r. simpl. by rewrite Hl.
  - unfold bind, ret. apply dec_stable in Hc.
    destruct d as [layers objects], l as [n c]. simpl in *. by subst.
Qed.

(** [addRhinoLayer] always returns, touches no object, and leaves a layer
    of the requested name. *)
Lemma addRhinoLayer_returns layerName layerColor d :
  exists i d', addRhinoLayer layerName layerColor d = (Ok i, d') /\
               Objects d' = Objects d /\
               filter (fun l => Name l = layerName) (Layers d') <> [].
Proof.
  destruct (find_layer layerName (Layers d)) as [i|] eqn:Hfind.
  - destruct (find_layer_Some _ _ _ Hfind) as (pre & l & post & Hd & _ & Hl & Hpre).
    eexists. eexists. split; [by eapply addRhinoLayer_existing|].
    split; [reflexivity|]. cbn [Layers].
    rewrite filter_app, filter_cons_True by reflexivity.
    by destruct (filter _ pre).
  - eexists. eexists. split; [by apply addRhinoLayer_new|].
    split; [reflexivity|]. cbn [Layers].
    rewrite filter_app, filter_cons_True by reflexivity.
    by destruct (filter _ (Layers d)).
Qed.

(** C4. Calling [addRhinoLayer] twice with one name and two colors, on a
    document that holds at most one layer of that name, leaves exactly one
    layer of that name; its color is the color of the second call, and both
    calls return the index of that layer. *)
Theorem addRhinoLayer_twice (layerName : string) (c1 c2 : Drawing.Color)
    (d : Document) :
  (length (layers_named layerName d) <= 1)%nat ->
  exists i1 d1 i2 d2,
    addRhinoLayer layerName c1 d = (Ok i1, d1) /\
    addRhinoLayer layerName c2 d1 = (Ok i2, d2) /\
    layers_named layerName d2 = [mkLayer layerName c2] /\
    i2 = i1 /\ 0 <= i2 /\
    Layers d2 !! Z.to_nat i2 = Some (mkLayer layerName c2) /\
    length (Layers d2) = length (Layers d1).
Proof.
  unfold layers_named. intros Hone.
  destruct (find_layer layerName (Layers d)) as [i|] eqn:Hfind.
  - destruct (find_layer_Some _ _ _ Hfind) as (pre & l & post & Hd & _ & Hl & Hpre).
    rewrite Hd, filter_app, Hpre, filter_cons_True in Hone by exact Hl.
    simpl in Hone. assert (filter (fun l => Name l = layerName) post = []) as Hpost.
    { destruct (filter _ post); [reflexivity | simpl in Hone; lia]. }
    eexists. eexists. eexists. eexists.
    split; [by eapply addRhinoLayer_existing|].
    split; [by eapply addRhinoLayer_existing|].
    cbn [Layers]. rewrite Nat2Z.id.
    rewrite filter_app, Hpre, filter_cons_True, Hpost by reflexivity.
    repeat split; [lia | by apply list_lookup_middle |].
    by rewrite !length_app.
  - eexists. eexists. eexists. eexists.
    split; [by apply addRhinoLayer_new|].
    split; [eapply (addRhinoLayer_existing _ _ _ (Layers d) _ []);
            [reflexivity | reflexivity | by apply find_layer_None]|].
    cbn [Layers]. rewrite Nat2Z.id.
    rewrite filter_app, (find_layer_None _ _ Hfind), filter_cons_True by reflexivity.
    repeat split; [lia | by apply list_lookup_middle |].
    by rewrite !length_app.
Qed.

(** ** Frames *)

#[local] Instance grows_preorder P : PreOrder (grows P).
Proof.
  split.
  - intros d. exists []. by rewrite app_nil_r.
  - intros d1 d2 d3 (n1 & H1 & HP1) (n2 & H2 & HP2).
    exists (n1 ++ n2). rewrite H2, H1, <- app_assoc. split; [reflexivity|].
    by apply Forall_app.
Qed.

#[local] Instance frame_preorder P : PreOrder (frame P).
Proof.
  split.
  - intros d. split; reflexivity.
  - intros d1 d2 d3 [L1 G1] [L2 G2]. split; [congruence | by etransitivity].
Qed.

Section Within.

Context (R : Document -> Document -> Prop) `{!PreOrder R}.

Lemma within_ret {A} (a : A) : within R (ret a).
Proof. intros d. reflexivity. Qed.

Lemma within_lift {A} (r : res A) : within R (lift r).
Proof. intros d. reflexivity. Qed.

Lemma within_bind {A B} (m : M A) (k : A -> M B) :
  within R m -> (forall a, within R (k a)) -> within R (bind m k).
Proof.
  intros Hm Hk d. unfold bind. specialize (Hm d).
  destruct (m d) as [[a|e] d1]; simpl in *.
  - etransitivity; [exact Hm | apply Hk].
  - exact Hm.
Qed.

Lemma within_for_each {A S} (xs : list A) (body : A -> S -> M S) acc :
  (forall x acc, within R (body x acc)) -> within R (for_each xs body acc).
Proof.
  intros Hbody. revert acc. induction xs as [|x xs IH]; intros acc; simpl.
  - apply within_ret.
  - apply within_bind; [apply Hbody | exact IH].
Qed.

End Within.

(** ** Add-operations honour their contract *)

Lemma addPoint_adds : adds (fun p => [GPoint p]) addPoint.
Proof. intros p att d. exists (length (Objects d)). split; reflexivity. Qed.

Lemma addCurve_adds : adds (fun c => curve_geometry [c]) addCurve.
Proof.
  intros c att d. eexists. rewrite addCurve_run. split; [reflexivity|].
  by destruct c.
Qed.

Lemma addPoints_adds : adds (map GPoint) addPoints.
Proof.
  intros ps att d. eexists. rewrite addPoints_run, map_map.
  split; [reflexivity|]. unfold as_value, Returned_list. cbn [identifiers_of].
  by rewrite omap_built, length_map.
Qed.

Lemma addCurves_adds : adds curve_geometry addCurves.
Proof.
  intros cs att d. eexists. rewrite addCurves_run. split; [reflexivity|].
  apply curve_ids_objects.
Qed.

Lemma addPolygon_adds : adds curve_geometry addPolygon.
Proof. exact addCurves_adds. Qed.

Lemma addPolygons_adds : adds (fun pl => curve_geometry (concat pl)) addPolygons.
Proof.
  intros pl att d. eexists. rewrite addPolygons_run. split; [reflexivity|].
  apply curve_ids_objects.
Qed.

Lemma dict_get_Forall {V} (P : V -> Prop) (members : list (string * V)) k v :
  Forall (fun kv => P kv.2) members -> dict_get members k = Some v -> P v.
Proof.
  induction 1 as [|[k' v'] rest Hv' _ IH]; simpl; [discriminate|].
  destruct (String.eqb k' k); [by intros [= <-] | exact IH].
Qed.

Lemma geoJsonGeometryMap_adds geomType e :
  dict_get geoJsonGeometryMap geomType = Some e -> entry_adds e.
Proof.
  apply dict_get_Forall. unfold geoJsonGeometryMap.
  repeat constructor; simpl;
    eauto using addPoint_adds, addPoints_adds, addCurve_adds, addCurves_adds,
                addPolygon_adds, addPolygons_adds.
Qed.

Lemma dict_subscript_Ok {V} (members : list (string * V)) k v :
  dict_subscript members k = Ok v ->
  exists s, k = JStr s /\ dict_get members s = Some v.
Proof.
  destruct k; simpl; try discriminate.
  destruct (dict_get members s) eqn:Hget; [|discriminate].
  intros [= <-]. eauto.
Qed.

Lemma document_eta d : mkDocument (Layers d) (Objects d ++ []) = d.
Proof. destruct d. simpl. by rewrite app_nil_r. Qed.

(** What the geometry step does to the document, however it ends: objects
    are added under [att] and nothing else changes; a returned value holds
    their identifiers; a raised exception leaves no object behind. *)
Lemma processGeoJson_geometry_outcome jsonFeature att d :
  exists geoms,
    (processGeoJson_geometry jsonFeature att d).2
    = mkDocument (Layers d) (Objects d ++ map (fun g => mkRhinoObject g att) geoms) /\
    (forall v, (processGeoJson_geometry jsonFeature att d).1 = Ok v ->
               identifiers_of v = seq (length (Objects d)) (length geoms)) /\
    (forall e, (processGeoJson_geometry jsonFeature att d).1 = Raise e -> geoms = []).
Proof.
  assert (forall e : exn, exists geoms,
    (Raise e : res value, d).2
    = mkDocument (Layers d) (Objects d ++ map (fun g => mkRhinoObject g att) geoms) /\
    (forall v, (Raise e : res value, d).1 = Ok v ->
               identifiers_of v = seq (length (Objects d)) (length geoms)) /\
    (forall e', (Raise e : res value, d).1 = Raise e' -> geoms = [])) as Hfail.
  { intros e. exists []. simpl. rewrite document_eta. by repeat split. }
  unfold processGeoJson_geometry.
  destruct (subscript jsonFeature (JStr "geometry")) as [geom|e] eqn:Hgeom;
    [rewrite (bind_lift_Ok _ _ _ _ eq_refl) | apply Hfail].
  destruct (subscript geom (JStr "type")) as [geomType|e] eqn:Htype;
    [rewrite (bind_lift_Ok _ _ _ _ eq_refl) | apply Hfail].
  destruct (subscript geom (JStr "coordinates")) as [c|e] eqn:Hc;
    [rewrite (bind_lift_Ok _ _ _ _ eq_refl) | apply Hfail].
  destruct (dict_subscript geoJsonGeometryMap geomType) as [entry|e] eqn:He;
    [rewrite (bind_lift_Ok _ _ _ _ eq_refl) | apply Hfail].
  apply dict_subscript_Ok in He as (t & -> & Hget).
  apply geoJsonGeometryMap_adds in Hget.
  destruct entry as [T R HR convert add|f]; [|apply Hfail].
  destruct Hget as [geometry Hget].
  destruct (convert c) as [rh|e] eqn:Hconv;
    [rewrite (bind_lift_Ok _ _ _ _ eq_refl) | apply Hfail].
  destruct (Hget rh att d) as (r & Hadd & Hids).
  rewrite (bind_Ok _ _ _ _ _ Hadd). exists (geometry rh). simpl.
  split; [reflexivity|]. split; [|discriminate].
  intros v [= <-]. exact Hids.
Qed.

(** ** The feature loop *)

Lemma bind_ret {A B} (a : A) (k : A -> M B) d : bind (ret a) k d = k a d.
Proof. reflexivity. Qed.

Lemma bind_ret_document {A B} (m : M A) (g : A -> B) d :
  (bind m (fun a => ret (g a)) d).2 = (m d).2.
Proof. unfold bind, ret. by destruct (m d) as [[a|e] d1]. Qed.

Lemma for_res_invariant {A S} (P : S -> Prop) (xs : list A)
    (body : A -> S -> res S) acc acc' :
  (forall x a a', body x a = Ok a' -> P a -> P a') ->
  P acc -> for_res xs body acc = Ok acc' -> P acc'.
Proof.
  intros Hbody. revert acc. induction xs as [|x xs IH]; intros acc Hacc; simpl.
  - by intros [= <-].
  - destruct (body x acc) as [a|e] eqn:Hx; simpl; [|discriminate].
    apply IH. by eapply Hbody.
Qed.

Lemma SetUserString_LayerIndex att key value att' :
  SetUserString att key value = Ok att' -> LayerIndex att' = LayerIndex att.
Proof. destruct key; simpl; try discriminate. by intros [= <-]. Qed.

(** The layer step on what a caller passes ([None] or a name): it returns,
    it touches no object and no user string, and without a layer it does
    nothing at all. *)
Lemma processGeoJson_layer_returns destinationLayer color att d :
  exists att1 d1,
    processGeoJson_layer (layer_arg destinationLayer) color att d = (Ok att1, d1) /\
    UserStrings att1 = UserStrings att /\ Objects d1 = Objects d /\
    (destinationLayer = None -> att1 = att /\ d1 = d).
Proof.
  destruct destinationLayer as [layerName|]; simpl.
  - destruct (addRhinoLayer_returns layerName color d) as (i & d1 & Hrun & Hobj & _).
    exists (set_LayerIndex att i), d1.
    rewrite (bind_Ok _ _ _ _ _ Hrun).
    split; [reflexivity|]. split; [reflexivity|]. split; [exact Hobj | discriminate].
  - exists att, d. by repeat split.
Qed.

(** Whatever [destinationLayer] is, the layer step touches no object and no
    user string. *)
Lemma processGeoJson_layer_objects destinationLayer color att d :
  Objects (processGeoJson_layer destinationLayer color att d).2 = Objects d /\
  forall att1, (processGeoJson_layer destinationLayer color att d).1 = Ok att1 ->
               UserStrings att1 = UserStrings att.
Proof.
  destruct destinationLayer as [| | | |layerName| |];
    try (split; [reflexivity | discriminate]).
  - split; [reflexivity|]. by intros att1 [= <-].
  - destruct (processGeoJson_layer_returns (Some layerName) color att d)
      as (att1 & d1 & Hrun & Hus & Hobj & _).
    simpl in Hrun. cbn [processGeoJson_layer]. rewrite Hrun. simpl.
    split; [exact Hobj|]. by intros ? [= <-].
Qed.

Section Processing.

Context `{PythonRuntime}.

Lemma processGeoJson_properties_LayerIndex jsonFeature att att' :
  processGeoJson_properties jsonFeature att = Ok att' ->
  LayerIndex att' = LayerIndex att.
Proof.
  unfold processGeoJson_properties.
  destruct (subscript jsonFeature (JStr "properties")) as [p|e]; simpl; [|discriminate].
  destruct (truthy p); [|by intros [= <-]].
  destruct (iter p) as [keys|e]; simpl; [|discriminate].
  apply (for_res_invariant (fun a => LayerIndex a = LayerIndex att)); [|reflexivity].
  intros key a a'. destruct (subscript p key); simpl; [|discriminate].
  intros Hset%SetUserString_LayerIndex. congruence.
Qed.

(** Without a destination layer, a feature leaves the layers alone and its
    objects carry no layer index. *)
Lemma processGeoJson_feature_None color jsonFeature guidResults :
  within (frame (fun o => LayerIndex (Attributes o) = None))
    (processGeoJson_feature JNull color jsonFeature guidResults).
Proof.
  intros d. unfold processGeoJson_feature. cbn [processGeoJson_layer].
  rewrite bind_ret.
  destruct (processGeoJson_properties jsonFeature new_ObjectAttributes)
    as [att|e] eqn:Hprops.
  - rewrite (bind_lift_Ok _ _ _ _ eq_refl), bind_ret_document.
    destruct (processGeoJson_geometry_outcome jsonFeature att d)
      as (geoms & -> & _).
    split; [reflexivity|]. eexists. split; [reflexivity|].
    apply Forall_map, Forall_forall. intros g _. simpl.
    by apply processGeoJson_properties_LayerIndex in Hprops.
  - rewrite (bind_lift_Raise _ _ _ _ eq_refl). reflexivity.
Qed.

(** The objects of a feature carry the attributes its properties step
    produces from attributes without user strings. *)
Lemma processGeoJson_feature_grows destinationLayer color jsonFeature
    guidResults (P : ObjectAttributes -> Prop) :
  (forall att att', UserStrings att = ∅ ->
                    processGeoJson_properties jsonFeature att = Ok att' ->
                    P att') ->
  within (grows (fun o => P (Attributes o)))
    (processGeoJson_feature destinationLayer color jsonFeature guidResults).
Proof.
  intros HP d. unfold processGeoJson_feature.
  destruct (processGeoJson_layer_objects destinationLayer color
              new_ObjectAttributes d) as [Hobj Hatt].
  destruct (processGeoJson_layer destinationLayer color new_ObjectAttributes d)
    as [[att1|e] d1] eqn:Hlayer; simpl in Hobj, Hatt.
  - rewrite (bind_Ok _ _ _ _ _ Hlayer).
    destruct (processGeoJson_properties jsonFeature att1) as [att|e] eqn:Hprops.
    + rewrite (bind_lift_Ok _ _ _ _ eq_refl), bind_ret_document.
      destruct (processGeoJson_geometry_outcome jsonFeature att d1)
        as (geoms & -> & _).
      eexists. cbn [Objects]. rewrite Hobj. split; [reflexivity|].
      apply Forall_map, Forall_forall. intros g _. simpl.
      eapply HP; [|exact Hprops]. by rewrite (Hatt att1 eq_refl).
    + rewrite (bind_lift_Raise _ _ _ _ eq_refl). simpl.
      exists []. by rewrite Hobj, app_nil_r.
  - rewrite (bind_Raise _ _ _ _ _ Hlayer). simpl.
    exists []. by rewrite Hobj, app_nil_r.
Qed.

Lemma processGeoJson_within (R : Document -> Document -> Prop) `{!PreOrder R}
    parsedGeoJson destinationLayer color :
  (forall jsonFeature guidResults,
      within R (processGeoJson_feature destinationLayer color jsonFeature guidResults)) ->
  within R (processGeoJson parsedGeoJson destinationLayer color).
Proof.
  intros Hbody. unfold processGeoJson.
  apply within_bind; [exact _ | apply within_lift; exact _ |]. intros jsonFeatures.
  apply within_bind; [exact _ | apply within_lift; exact _ |]. intros features.
  by apply within_for_each.
Qed.

(** ** [load] *)

(** C2. Whatever text, [destinationLayer] and [destinationLayerColor] it is
    given, [load] does what it does with [destinationLayer=None]: the two
    arguments are not forwarded, so the outcome is the same, no layer is
    created or changed, and every object created has no layer index
    assigned. *)
Theorem load_ignores_destinationLayer (rawGeoJsonData : string)
    (destinationLayer : json) (destinationLayerColor : Drawing.Color)
    (d : Document) :
  load rawGeoJsonData destinationLayer destinationLayerColor d
  = load rawGeoJsonData JNull Drawing.Black d /\
  Layers (load rawGeoJsonData destinationLayer destinationLayerColor d).2
  = Layers d /\
  grows (fun o => LayerIndex (Attributes o) = None) d
    (load rawGeoJsonData destinationLayer destinationLayerColor d).2.
Proof.
  split; [reflexivity|].
  assert (within (frame (fun o => LayerIndex (Attributes o) = None))
            (load rawGeoJsonData destinationLayer destinationLayerColor)) as Hload.
  { unfold load. apply within_bind; [exact _ | apply within_lift; exact _ |].
    intros geoJson. apply processGeoJson_within; [exact _|].
    apply processGeoJson_feature_None. }
  exact (Hload d).
Qed.

End Processing.

(** ** Properties as user strings *)

Lemma dict_get_member {V} (members : list (string * V)) k :
  k ∈ map fst members -> is_Some (dict_get members k).
Proof.
  induction members as [|[k' v'] rest IH]; simpl.
  - by intros ?%elem_of_nil.
  - destruct (String.eqb_spec k' k) as [->|Hne]; [eauto|].
    intros [?|?]%elem_of_cons; [congruence | auto].
Qed.

Lemma dict_get_NoDup {V} (members : list (string * V)) k v :
  NoDup (map fst members) -> (k, v) ∈ members -> dict_get members k = Some v.
Proof.
  induction members as [|[k' v'] rest IH]; simpl.
  - by intros _ ?%elem_of_nil.
  - intros [Hk' Hrest]%NoDup_cons [[= <- <-]|Hin]%elem_of_cons.
    + by rewrite String.eqb_refl.
    + destruct (String.eqb_spec k' k) as [->|Hne]; [|auto].
      destruct Hk'. apply list_elem_of_fmap. by exists (k, v).
Qed.

Section Copying.

Context `{PythonRuntime}.

(** The copying loop over keys of the dict it copies from. *)
Lemma copy_loop (members : list (string * json)) (ks : list string) att :
  (forall k, k ∈ ks -> is_Some (dict_get members k)) ->
  exists att',
    for_res (map JStr ks)
      (fun key att =>
         let? v := subscript (JObj members) key in
         SetUserString att key (str v)) att = Ok att' /\
    LayerIndex att' = LayerIndex att /\
    forall k, UserStrings att' !! k
              = if decide (k ∈ ks) then str <$> dict_get members k
                else UserStrings att !! k.
Proof.
  revert att. induction ks as [|k0 ks IH]; intros att Hks.
  - exists att. split; [reflexivity|]. split; [reflexivity|]. intros k.
    destruct (decide (k ∈ [])) as [?%elem_of_nil|]; done.
  - destruct (Hks k0) as [v Hv]; [by left|].
    cbn [map for_res]. unfold subscript, dict_subscript. rewrite Hv.
    cbn [res_bind SetUserString].
    destruct (IH (mkObjectAttributes (LayerIndex att)
                    (<[k0:=str v]> (UserStrings att)))) as (att' & Hrun & Hli & Hus).
    { intros k Hk. apply Hks. by right. }
    exists att'. split; [exact Hrun|]. split; [exact Hli|].
    intros k. rewrite Hus. cbn [UserStrings].
    destruct (decide (k ∈ ks)) as [Hin|Hnin].
    + rewrite decide_True by (by right). reflexivity.
    + destruct (decide (k = k0)) as [->|Hne].
      * rewrite decide_True by (by left). by rewrite lookup_insert_eq, Hv.
      * rewrite decide_False by (by intros [?|?]%elem_of_cons).
        by rewrite lookup_insert_ne.
Qed.

Lemma processGeoJson_properties_dict jsonFeature members att :
  subscript jsonFeature (JStr "properties") = Ok (JObj members) ->
  exists att',
    processGeoJson_properties jsonFeature att = Ok att' /\
    LayerIndex att' = LayerIndex att /\
    forall k, UserStrings att' !! k
              = if decide (k ∈ map fst members) then str <$> dict_get members k
                else UserStrings att !! k.
Proof.
  intros Hp. unfold processGeoJson_properties. rewrite Hp. cbn [res_bind].
  destruct members as [|m members'] eqn:Hm.
  - exists att. split; [reflexivity|]. split; [reflexivity|]. intros k.
    destruct (decide (k ∈ map fst [])) as [?%elem_of_nil|]; done.
  - rewrite <- Hm in *. replace (truthy (JObj members)) with true by by subst.
    cbn [iter res_bind].
    replace (map (fun kv : string * json => JStr kv.1) members)
      with (map JStr (map fst members)) by by rewrite map_map.
    apply copy_loop. intros k. apply dict_get_member.
Qed.

(** Usable properties never stop a feature. *)
Lemma processGeoJson_properties_returns jsonFeature att :
  usable_properties jsonFeature = true ->
  exists att', processGeoJson_properties jsonFeature att = Ok att'.
Proof.
  unfold usable_properties.
  destruct (subscript jsonFeature (JStr "properties")) as [p|e] eqn:Hp;
    [|discriminate].
  destruct p as [| | | | | |members];
    try (intros Hfalsy%negb_true_iff; unfold processGeoJson_properties;
         rewrite Hp; cbn [res_bind]; rewrite Hfalsy; eauto).
  intros _.
  destruct (processGeoJson_properties_dict jsonFeature members att Hp)
    as (att' & Hrun & _). eauto.
Qed.

(** The user strings a dict of properties gives to fresh attributes. *)
Lemma properties_user_strings jsonFeature members :
  subscript jsonFeature (JStr "properties") = Ok (JObj members) ->
  NoDup (map fst members) ->
  exists us : gmap string string,
    (forall k v, (k, v) ∈ members -> us !! k = Some (str v)) /\
    size us = length members /\
    (forall att att', UserStrings att = ∅ ->
                      processGeoJson_properties jsonFeature att = Ok att' ->
                      UserStrings att' = us).
Proof.
  intros Hp Hnd.
  destruct (processGeoJson_properties_dict jsonFeature members
              new_ObjectAttributes Hp) as (att0 & Hrun0 & _ & Hus0).
  exists (UserStrings att0). split; [|split].
  - intros k v Hkv. rewrite Hus0, decide_True.
    + by rewrite (dict_get_NoDup members k v Hnd Hkv).
    + apply list_elem_of_fmap. by exists (k, v).
  - assert (dom (UserStrings att0) = list_to_set (map fst members)) as Hdom.
    { apply set_eq. intros k. rewrite elem_of_dom, elem_of_list_to_set, Hus0.
      destruct (decide (k ∈ map fst members)) as [Hin|Hnin].
      - split; [done|]. intros _.
        destruct (dict_get_member members k Hin) as [v ->]. by eexists.
      - cbn [new_ObjectAttributes UserStrings]. rewrite lookup_empty.
        split; [by intros [? ?] | done]. }
    rewrite <- size_dom, Hdom, size_list_to_set, length_map by exact Hnd.
    reflexivity.
  - intros att att' Hempty Hrun.
    destruct (processGeoJson_properties_dict jsonFeature members att Hp)
      as (att1 & Hrun1 & _ & Hus1).
    assert (att1 = att') as <- by congruence.
    apply map_eq. intros k. rewrite Hus1, Hus0, Hempty. reflexivity.
Qed.

End Copying.

(** ** One feature *)

Section Features.

Context `{PythonRuntime}.

(** A feature that returns has appended one value, and the identifiers in
    that value name objects of the document that carry the attributes the
    properties step produced from attributes without user strings. *)
Lemma processGeoJson_feature_created destinationLayer color jsonFeature
    guidResults d r d' :
  processGeoJson_feature destinationLayer color jsonFeature guidResults d
  = (Ok r, d') ->
  exists att1 att' v,
    UserStrings att1 = ∅ /\
    processGeoJson_properties jsonFeature att1 = Ok att' /\
    r = guidResults ++ [v] /\
    Forall (fun g => exists o, Objects d' !! g = Some o /\ Attributes o = att')
      (identifiers_of v).
Proof.
  unfold processGeoJson_feature.
  destruct (processGeoJson_layer_objects destinationLayer color
              new_ObjectAttributes d) as [_ Hatt].
  destruct (processGeoJson_layer destinationLayer color new_ObjectAttributes d)
    as [[att1|e] d1] eqn:Hlayer; simpl in Hatt.
  2: { rewrite (bind_Raise _ _ _ _ _ Hlayer). discriminate. }
  rewrite (bind_Ok _ _ _ _ _ Hlayer).
  destruct (processGeoJson_properties jsonFeature att1) as [att'|e] eqn:Hprops.
  2: { rewrite (bind_lift_Raise _ _ _ _ eq_refl). discriminate. }
  rewrite (bind_lift_Ok _ _ _ _ eq_refl).
  destruct (processGeoJson_geometry_outcome jsonFeature att' d1)
    as (geoms & Hdoc & Hids & _).
  unfold bind, ret.
  destruct (processGeoJson_geometry jsonFeature att' d1) as [[v|e] d2];
    [|discriminate].
  simpl in Hdoc, Hids. intros [= <- <-].
  exists att1, att', v. split; [exact (Hatt att1 eq_refl)|].
  split; [exact Hprops|]. split; [reflexivity|].
  rewrite (Hids v eq_refl), Hdoc. cbn [Objects].
  apply Forall_forall. intros g [Hlo Hhi]%elem_of_seq.
  rewrite lookup_app_r by exact Hlo. rewrite list_lookup_fmap.
  destruct (lookup_lt_is_Some_2 geoms (g - length (Objects d1))) as [geom ->];
    [lia|].
  eexists. split; reflexivity.
Qed.

Lemma processGeoJson_run parsedGeoJson features destinationLayer color d :
  subscript parsedGeoJson (JStr "features") = Ok (JArr features) ->
  processGeoJson parsedGeoJson destinationLayer color d
  = for_each features (processGeoJson_feature destinationLayer color) [] d.
Proof.
  intros Hf. unfold processGeoJson.
  rewrite (bind_lift_Ok _ _ _ _ Hf). by rewrite (bind_lift_Ok _ _ _ (features) eq_refl).
Qed.

(** A loop that returns has appended one value per feature, in order, and
    each value names objects of the final document. *)
Lemma features_created destinationLayer color features guidResults d r d' :
  for_each features (processGeoJson_feature destinationLayer color) guidResults d
  = (Ok r, d') ->
  exists vs,
    r = guidResults ++ vs /\
    Forall2
      (fun jsonFeature v =>
         exists att1 att',
           UserStrings att1 = ∅ /\
           processGeoJson_properties jsonFeature att1 = Ok att' /\
           Forall (fun g => exists o, Objects d' !! g = Some o /\ Attributes o = att')
             (identifiers_of v))
      features vs.
Proof.
  revert guidResults d. induction features as [|f fs IH]; intros acc d; simpl.
  - intros [= <- <-]. exists []. by rewrite app_nil_r.
  - unfold bind at 1.
    destruct (processGeoJson_feature destinationLayer color f acc d)
      as [[r1|e] d1] eqn:Hf; [|discriminate].
    intros Hrest.
    destruct (processGeoJson_feature_created _ _ _ _ _ _ _ Hf)
      as (att1 & att' & v & Hempty & Hprops & -> & Hobjs).
    assert (grows (fun _ => True) d1 d') as (new & Hnew & _).
    { pose proof (within_for_each (grows (fun _ => True)) fs
                    (processGeoJson_feature destinationLayer color) (acc ++ [v])) as Hw.
      specialize (Hw (fun x a => processGeoJson_feature_grows _ _ x a
                                   (fun _ => True) (fun _ _ _ _ => I)) d1).
      by rewrite Hrest in Hw. }
    destruct (IH _ _ Hrest) as (vs & -> & HF).
    exists (v :: vs). rewrite <- app_assoc. split; [reflexivity|].
    constructor; [|exact HF].
    exists att1, att'. split; [exact Hempty|]. split; [exact Hprops|].
    eapply Forall_impl; [exact Hobjs|]. intros g (o & Ho & Hatt).
    exists o. split; [|exact Hatt]. rewrite Hnew. by apply lookup_app_l_Some.
Qed.

End Features.

(** ** Dispatch *)

Ltac dispatch_with entry adds_lemma :=
  let He := fresh "He" in
  let rh := fresh "rh" in
  let Hconv := fresh "Hconv" in
  let r := fresh "r" in
  let Hadd := fresh "Hadd" in
  let Hids := fresh "Hids" in
  cbv iota;
  match goal with
  | |- context [dict_subscript geoJsonGeometryMap ?k] =>
      assert (dict_subscript geoJsonGeometryMap k = Ok entry) as He
        by reflexivity
  end;
  rewrite (bind_lift_Ok _ _ _ _ He);
  match goal with
  | |- res_bind ?converted _ = Ok _ -> _ =>
      destruct converted as [rh|] eqn:Hconv; cbn [res_bind]; [|discriminate]
  end;
  intros [= <-];
  rewrite (bind_lift_Ok _ _ _ _ eq_refl);
  match goal with
  | |- context [bind (?add rh ?att) _ ?d] =>
      destruct (adds_lemma rh att d) as (r & Hadd & Hids);
      rewrite (bind_Ok _ _ _ _ _ Hadd)
  end;
  eexists;
  split; [reflexivity
         | split; [exact Hids | first [reflexivity | by destruct r]]].

(** The geometry step on a geometry that converts: it returns and adds the
    objects the geometry stands for, under the attributes it was given; the
    value is one identifier for points and line strings and a list of
    identifiers for the other kinds. *)
Lemma processGeoJson_geometry_converts jsonFeature geom geomType c geoms att d :
  subscript jsonFeature (JStr "geometry") = Ok geom ->
  subscript geom (JStr "type") = Ok (JStr geomType) ->
  subscript geom (JStr "coordinates") = Ok c ->
  geometry_objects geomType c = Ok geoms ->
  exists v,
    processGeoJson_geometry jsonFeature att d
    = (Ok v, mkDocument (Layers d)
               (Objects d ++ map (fun g => mkRhinoObject g att) geoms)) /\
    identifiers_of v = seq (length (Objects d)) (length geoms) /\
    is_identifier v = single_kind geomType.
Proof.
  intros Hgeom Htype Hc. unfold processGeoJson_geometry.
  rewrite (bind_lift_Ok _ _ _ _ Hgeom), (bind_lift_Ok _ _ _ _ Htype),
    (bind_lift_Ok _ _ _ _ Hc).
  unfold geometry_objects.
  destruct (String.eqb_spec geomType "Point") as [->|_].
  { dispatch_with (Tuple PointToRhinoPoint addPoint) addPoint_adds. }
  destruct (String.eqb_spec geomType "MultiPoint") as [->|_].
  { dispatch_with (Tuple MultiPointToRhinoPoint addPoints) addPoints_adds. }
  destruct (String.eqb_spec geomType "LineString") as [->|_].
  { dispatch_with (Tuple LineStringToRhinoCurve addCurve) addCurve_adds. }
  destruct (String.eqb_spec geomType "MultiLineString") as [->|_].
  { dispatch_with (Tuple MultiLineStringToRhinoCurve addCurves) addCurves_adds. }
  destruct (String.eqb_spec geomType "Polygon") as [->|_].
  { dispatch_with (Tuple PolygonToRhinoCurve addPolygon) addPolygon_adds. }
  destruct (String.eqb_spec geomType "MultiPolygon") as [->|_]; [|discriminate].
  dispatch_with (Tuple MultiPolygonToRhinoCurve addPolygons) addPolygons_adds.
Qed.

(** A payload of the shape of its kind converts. *)
Lemma geometry_objects_supported geomType c :
  supported_coordinates geomType c = true ->
  exists geoms, geometry_objects geomType c = Ok geoms.
Proof.
  unfold supported_coordinates, geometry_objects.
  destruct (String.eqb_spec geomType "Point") as [->|_].
  { intros [p ->]%PointToRhinoPoint_position. simpl. eauto. }
  destruct (String.eqb_spec geomType "MultiPoint") as [->|_].
  { intros [ps ->]%MultiPointToRhinoPoint_line. simpl. eauto. }
  destruct (String.eqb_spec geomType "LineString") as [->|_].
  { intros [curve ->]%LineStringToRhinoCurve_line. simpl. eauto. }
  destruct (String.eqb_spec geomType "MultiLineString") as [->|_].
  { intros [curves ->]%MultiLineStringToRhinoCurve_rings. simpl. eauto. }
  destruct (String.eqb_spec geomType "Polygon") as [->|_].
  { intros (ringList & -> & _)%PolygonToRhinoCurve_rings. simpl. eauto. }
  destruct (String.eqb_spec geomType "MultiPolygon") as [->|_]; [|discriminate].
  intros (polygons & -> & Hall)%is_array_of_items.
  assert (forallb is_rings polygons = true) as Hshape.
  { apply forallb_forall. intros x Hx%list_elem_of_In.
    rewrite Forall_forall in Hall. auto. }
  destruct (MultiPolygonToRhinoCurve_polygons polygons Hshape) as (pl & -> & _).
  simpl. eauto.
Qed.

(** A feature of a supported kind has usable properties and a geometry that
    converts. *)
Lemma supported_feature_objects jsonFeature :
  supported_feature jsonFeature = true ->
  usable_properties jsonFeature = true /\
  exists geoms, feature_objects jsonFeature = Ok geoms.
Proof.
  unfold supported_feature, feature_objects.
  intros [Hprops Hgeometry]%andb_prop. split; [exact Hprops|].
  destruct (subscript jsonFeature (JStr "geometry")) as [geom|]; [|discriminate].
  cbn [res_bind].
  destruct (subscript geom (JStr "type")) as [[| | | |geomType| |]|];
    try discriminate.
  destruct (subscript geom (JStr "coordinates")) as [c|]; [|discriminate].
  cbn [res_bind]. by apply geometry_objects_supported.
Qed.

Lemma forallb_built {A} (l : list A) :
  forallb (fun g : option A => match g with Some _ => true | None => false end)
    (map Some l) = true.
Proof. induction l as [|x l IH]; [reflexivity | exact IH]. Qed.

Lemma is_paths_items v :
  is_paths v = true -> exists rings, v = JArr rings /\ forallb is_path rings = true.
Proof. destruct v; try discriminate. simpl. eauto. Qed.

Ltac built_with entry Hconv Hadd :=
  let He := fresh "He" in
  match goal with
  | |- context [dict_subscript geoJsonGeometryMap ?k] =>
      assert (dict_subscript geoJsonGeometryMap k = Ok entry) as He
        by reflexivity
  end;
  rewrite (bind_lift_Ok _ _ _ _ He), (bind_lift_Ok _ _ _ _ Hconv),
    (bind_Ok _ _ _ _ _ Hadd);
  intros [= <- _].

(** The geometry step on a feature every object of which the host builds:
    the value it returns holds no [Guid.Empty]. *)
Lemma processGeoJson_geometry_built jsonFeature att d v d' :
  built_feature jsonFeature = true ->
  processGeoJson_geometry jsonFeature att d = (Ok v, d') ->
  names_objects v = true.
Proof.
  unfold built_feature, processGeoJson_geometry.
  destruct (subscript jsonFeature (JStr "geometry")) as [geom|] eqn:Hgeom;
    [|discriminate].
  destruct (subscript geom (JStr "type")) as [[| | | |geomType| |]|] eqn:Htype;
    try discriminate.
  destruct (subscript geom (JStr "coordinates")) as [c|] eqn:Hc; [|discriminate].
  rewrite (bind_lift_Ok _ _ _ geom eq_refl), (bind_lift_Ok _ _ _ _ Htype),
    (bind_lift_Ok _ _ _ _ Hc).
  unfold built_coordinates.
  destruct (String.eqb_spec geomType "Point") as [->|_].
  { intros [p Hp]%PointToRhinoPoint_position.
    destruct (addPoint_adds p att d) as (r & Hadd & _).
    built_with (Tuple PointToRhinoPoint addPoint) Hp Hadd. reflexivity. }
  destruct (String.eqb_spec geomType "MultiPoint") as [->|_].
  { intros [ps Hps]%MultiPointToRhinoPoint_line.
    built_with (Tuple MultiPointToRhinoPoint addPoints) Hps
      (addPoints_run ps att d).
    apply forallb_built. }
  destruct (String.eqb_spec geomType "LineString") as [->|_].
  { intros [curve Hcurve]%LineStringToRhinoCurve_path.
    built_with (Tuple LineStringToRhinoCurve addCurve) Hcurve
      (addCurve_run (Some curve) att d).
    reflexivity. }
  destruct (String.eqb_spec geomType "MultiLineString") as [->|_].
  { intros (rings & -> & Hall)%is_paths_items.
    destruct (PolygonToRhinoCurve_paths rings Hall) as (curves & Hcurves & _).
    change (MultiLineStringToRhinoCurve (JArr rings) = Ok (map Some curves))
      in Hcurves.
    built_with (Tuple MultiLineStringToRhinoCurve addCurves) Hcurves
      (addCurves_run (map Some curves) att d).
    unfold as_value, Returned_list_or_Empty. cbn [names_objects].
    rewrite curve_ids_built. apply forallb_built. }
  destruct (String.eqb_spec geomType "Polygon") as [->|_].
  { intros (rings & -> & Hall)%is_paths_items.
    destruct (PolygonToRhinoCurve_paths rings Hall) as (curves & Hcurves & _).
    built_with (Tuple PolygonToRhinoCurve addPolygon) Hcurves
      (addCurves_run (map Some curves) att d : addPolygon _ _ _ = _).
    unfold as_value, Returned_list_or_Empty. cbn [names_objects].
    rewrite curve_ids_built. apply forallb_built. }
  destruct (String.eqb_spec geomType "MultiPolygon") as [->|_]; [|discriminate].
  intros (polygons & -> & Hall)%is_array_of_items.
  assert (forallb is_paths polygons = true) as Hshape.
  { apply forallb_forall. intros x Hx%list_elem_of_In.
    rewrite Forall_forall in Hall. auto. }
  destruct (MultiPolygonToRhinoCurve_paths polygons Hshape) as (built & Hbuilt & _).
  built_with (Tuple MultiPolygonToRhinoCurve addPolygons) Hbuilt
    (addPolygons_run (map (map Some) built) att d).
  unfold as_value, Returned_list_or_Empty. cbn [names_objects].
  rewrite concat_built, curve_ids_built. apply forallb_built.
Qed.

Lemma subscript_str_dict v k x :
  subscript v (JStr k) = Ok x -> exists members, v = JObj members.
Proof. destruct v; try discriminate. eauto. Qed.

Section Collections.

Context `{PythonRuntime}.

(** A feature with usable properties and a geometry that converts: the
    layer step and the properties step return, and the feature adds the
    objects its geometry stands for, under the attributes the properties
    step gave, and appends their value. *)
Lemma processGeoJson_feature_adds destinationLayer color jsonFeature geoms
    guidResults d :
  usable_properties jsonFeature = true ->
  feature_objects jsonFeature = Ok geoms ->
  exists att1 d1 att' v,
    processGeoJson_layer (layer_arg destinationLayer) color
      new_ObjectAttributes d = (Ok att1, d1) /\
    UserStrings att1 = ∅ /\
    processGeoJson_properties jsonFeature att1 = Ok att' /\
    processGeoJson_feature (layer_arg destinationLayer) color jsonFeature
      guidResults d
    = (Ok (guidResults ++ [v]),
       mkDocument (Layers d1)
         (Objects d ++ map (fun g => mkRhinoObject g att') geoms)) /\
    entry_shape jsonFeature v = true /\
    identifiers_of v = seq (length (Objects d)) (length geoms).
Proof.
  intros Hprops. unfold feature_objects.
  destruct (subscript jsonFeature (JStr "geometry")) as [geom|] eqn:Hgeom;
    [|discriminate].
  cbn [res_bind].
  destruct (subscript geom (JStr "type")) as [geomType|] eqn:Htype;
    [|discriminate].
  cbn [res_bind].
  destruct (subscript geom (JStr "coordinates")) as [c|] eqn:Hc; [|discriminate].
  cbn [res_bind].
  destruct geomType as [| | | |geomType| |]; try discriminate.
  intros Hobjects.
  destruct (processGeoJson_layer_returns destinationLayer color
              new_ObjectAttributes d) as (att1 & d1 & Hlayer & Hus & Hobj & _).
  destruct (processGeoJson_properties_returns jsonFeature att1 Hprops)
    as [att' Hatt'].
  destruct (processGeoJson_geometry_converts jsonFeature geom geomType c geoms
              att' d1 Hgeom Htype Hc Hobjects) as (v & Hrun & Hids & Hshape).
  exists att1, d1, att', v.
  split; [exact Hlayer|]. split; [exact Hus|]. split; [exact Hatt'|].
  unfold processGeoJson_feature.
  rewrite (bind_Ok _ _ _ _ _ Hlayer), (bind_lift_Ok _ _ _ _ Hatt'),
    (bind_Ok _ _ _ _ _ Hrun), Hobj.
  split; [reflexivity|]. split.
  - unfold entry_shape, geometry_type. rewrite Hgeom, Htype, Hshape.
    by destruct (single_kind geomType).
  - by rewrite <- Hobj.
Qed.

Lemma processGeoJson_feature_returns destinationLayer color jsonFeature
    guidResults d :
  supported_feature jsonFeature = true ->
  exists v d' (k : nat),
    processGeoJson_feature (layer_arg destinationLayer) color jsonFeature
      guidResults d = (Ok (guidResults ++ [v]), d') /\
    entry_shape jsonFeature v = true /\
    identifiers_of v = seq (length (Objects d)) k /\
    length (Objects d') = (length (Objects d) + k)%nat.
Proof.
  intros [Hprops [geoms Hobjects]]%supported_feature_objects.
  destruct (processGeoJson_feature_adds destinationLayer color jsonFeature geoms
              guidResults d Hprops Hobjects)
    as (att1 & d1 & att' & v & _ & _ & _ & Hrun & Hshape & Hids).
  exists v. eexists. exists (length geoms). split; [exact Hrun|].
  split; [exact Hshape|]. split; [exact Hids|].
  cbn [Objects]. by rewrite length_app, length_map.
Qed.

Lemma features_return destinationLayer color features guidResults d :
  forallb supported_feature features = true ->
  exists vs d' (k : nat),
    for_each features (processGeoJson_feature (layer_arg destinationLayer) color)
      guidResults d = (Ok (guidResults ++ vs), d') /\
    Forall2 (fun jsonFeature v => entry_shape jsonFeature v = true) features vs /\
    identifiers vs = seq (length (Objects d)) k /\
    length (Objects d') = (length (Objects d) + k)%nat.
Proof.
  revert guidResults d. induction features as [|f fs IH]; intros acc d; simpl.
  - intros _. exists [], d, 0%nat. rewrite app_nil_r. by repeat split.
  - intros [Hf Hfs]%andb_prop.
    destruct (processGeoJson_feature_returns destinationLayer color f acc d Hf)
      as (v & d1 & k1 & Hrun & Hshape & Hids & Hlen).
    destruct (IH (acc ++ [v]) d1 Hfs) as (vs & d' & k2 & Hrest & HF & Hids' & Hlen').
    exists (v :: vs), d', (k1 + k2)%nat.
    rewrite (bind_Ok _ _ _ _ _ Hrun), Hrest, <- app_assoc.
    split; [reflexivity|]. split; [by constructor|]. split.
    + unfold identifiers in *. cbn [map concat].
      by rewrite Hids, Hids', Hlen, seq_app.
    + lia.
Qed.

Lemma processGeoJson_raises_at parsedGeoJson pre jsonFeature post
    destinationLayer color d guidResults d1 e d2 :
  subscript parsedGeoJson (JStr "features") = Ok (JArr (pre ++ jsonFeature :: post)) ->
  for_each pre (processGeoJson_feature destinationLayer color) [] d
  = (Ok guidResults, d1) ->
  processGeoJson_feature destinationLayer color jsonFeature guidResults d1
  = (Raise e, d2) ->
  processGeoJson parsedGeoJson destinationLayer color d = (Raise e, d2).
Proof.
  intros Hfs Hpre Hf. rewrite (processGeoJson_run _ _ _ _ _ Hfs).
  rewrite (for_each_app _ _ _ _ _ _ _ Hpre). cbn [for_each].
  by rewrite (bind_Raise _ _ _ _ _ Hf).
Qed.

(** A feature with usable properties whose geometry step raises: the
    exception is the feature's, and no object was created for it. *)
Lemma processGeoJson_feature_raises destinationLayer color jsonFeature
    guidResults d e :
  usable_properties jsonFeature = true ->
  (forall att d1, processGeoJson_geometry jsonFeature att d1 = (Raise e, d1)) ->
  exists d',
    processGeoJson_feature (layer_arg destinationLayer) color jsonFeature
      guidResults d = (Raise e, d') /\
    Objects d' = Objects d.
Proof.
  intros Hprops Hraise.
  destruct (processGeoJson_layer_returns destinationLayer color
              new_ObjectAttributes d) as (att1 & d1 & Hlayer & _ & Hobj & _).
  destruct (processGeoJson_properties_returns jsonFeature att1 Hprops)
    as [att' Hatt'].
  exists d1. unfold processGeoJson_feature.
  rewrite (bind_Ok _ _ _ _ _ Hlayer), (bind_lift_Ok _ _ _ _ Hatt'),
    (bind_Raise _ _ _ _ _ (Hraise att' d1)).
  by split.
Qed.

(** Where the host builds every object of every feature, a result holds no
    [Guid.Empty]. *)
Lemma features_name_objects destinationLayer color features guidResults d r d' :
  forallb built_feature features = true ->
  for_each features (processGeoJson_feature destinationLayer color) guidResults d
  = (Ok r, d') ->
  exists vs, r = guidResults ++ vs /\ forallb names_objects vs = true.
Proof.
  revert guidResults d. induction features as [|f fs IH]; intros acc d; simpl.
  - intros _ [= <- <-]. exists []. by rewrite app_nil_r.
  - intros [Hf Hfs]%andb_prop. unfold bind at 1.
    destruct (processGeoJson_feature destinationLayer color f acc d)
      as [[r1|e] d1] eqn:Hrun; [|discriminate].
    intros Hrest. destruct (IH _ _ Hfs Hrest) as (vs & -> & Hvs).
    revert Hrun. unfold processGeoJson_feature, bind, ret.
    destruct (processGeoJson_layer destinationLayer color new_ObjectAttributes d)
      as [[att1|?] d0]; [|discriminate].
    unfold lift.
    destruct (processGeoJson_properties f att1) as [att'|?]; [|discriminate].
    destruct (processGeoJson_geometry f att' d0) as [[v|?] d2] eqn:Hv;
      [|discriminate].
    intros [= <- _]. exists (v :: vs). rewrite <- app_assoc.
    split; [reflexivity|]. cbn [forallb].
    by rewrite (processGeoJson_geometry_built _ _ _ _ _ Hf Hv).
Qed.

End Collections.

(** ** Properties on the objects of a feature *)

Section Carried.

Context `{PythonRuntime}.

(** The loop over the features only adds objects. *)
Lemma features_grow destinationLayer color features guidResults d :
  exists new,
    Objects (for_each features (processGeoJson_feature destinationLayer color)
               guidResults d).2 = Objects d ++ new.
Proof.
  pose proof (within_for_each (grows (fun _ => True)) features
                (processGeoJson_feature destinationLayer color) guidResults) as Hw.
  specialize (Hw (fun x a => processGeoJson_feature_grows _ _ x a
                               (fun _ => True) (fun _ _ _ _ => I)) d).
  destruct Hw as (new & Hnew & _). by exists new.
Qed.

(** The feature at position [i] of a collection whose features are all of
    supported kinds: [processGeoJson] returns, the objects the feature's
    geometry stands for are in the document it leaves, under the attributes
    the feature's properties step gave, and the feature's place in the
    result holds their identifiers. *)
Lemma processGeoJson_feature_at parsedGeoJson features (i : nat) jsonFeature
    destinationLayer color d :
  subscript parsedGeoJson (JStr "features") = Ok (JArr features) ->
  features !! i = Some jsonFeature ->
  forallb supported_feature features = true ->
  exists r d' v att1 att' geoms before after,
    processGeoJson parsedGeoJson (layer_arg destinationLayer) color d
    = (Ok r, d') /\
    r !! i = Some v /\
    feature_objects jsonFeature = Ok geoms /\
    UserStrings att1 = ∅ /\
    processGeoJson_properties jsonFeature att1 = Ok att' /\
    Objects d' = before ++ map (fun g => mkRhinoObject g att') geoms ++ after /\
    identifiers_of v = seq (length before) (length geoms).
Proof.
  intros Hfs Hi Hall. rewrite (processGeoJson_run _ _ _ _ _ Hfs).
  pose proof (take_drop_middle _ _ _ Hi) as Hsplit.
  assert (length (take i features) = i) as Hlen.
  { apply lookup_lt_Some in Hi. rewrite length_take. lia. }
  clear Hi Hfs. revert Hsplit Hlen.
  generalize (take i features) (drop (S i) features). intros pre post <- <-.
  rewrite forallb_app in Hall. cbn [forallb] in Hall.
  apply andb_prop in Hall as [Hpre [Hf Hpost]%andb_prop].
  destruct (features_return destinationLayer color pre [] d Hpre)
    as (vs & d0 & k & Hrun0 & HF0 & _ & _).
  cbn [app] in Hrun0.
  destruct (supported_feature_objects _ Hf) as [Hprops [geoms Hobjects]].
  destruct (processGeoJson_feature_adds destinationLayer color jsonFeature geoms
              vs d0 Hprops Hobjects)
    as (att1 & d1 & att' & v & Hlayer & Hus & Hatt' & Hrunf & Hshape & Hids).
  set (d2 := mkDocument (Layers d1)
                (Objects d0 ++ map (fun g => mkRhinoObject g att') geoms)) in *.
  destruct (features_return destinationLayer color post (vs ++ [v]) d2 Hpost)
    as (ws & d' & k' & Hrun2 & _ & _ & _).
  destruct (features_grow (layer_arg destinationLayer) color post (vs ++ [v]) d2)
    as [after Hafter].
  rewrite Hrun2 in Hafter. unfold d2 in Hafter. cbn [snd Objects] in Hafter.
  exists ((vs ++ [v]) ++ ws), d', v, att1, att', geoms, (Objects d0), after.
  split.
  { rewrite (for_each_app _ _ _ _ _ _ _ Hrun0). cbn [for_each].
    rewrite (bind_Ok _ _ _ _ _ Hrunf). exact Hrun2. }
  split.
  { rewrite <- !app_assoc. apply list_lookup_middle.
    by apply Forall2_length in HF0. }
  split; [exact Hobjects|]. split; [exact Hus|]. split; [exact Hatt'|].
  split; [by rewrite Hafter, <- app_assoc | exact Hids].
Qed.

(** C10. A feature whose properties entry is present and empty skips the
    copying without error: the properties step returns the attributes
    unchanged.  Its geometry is converted and added as that of any feature:
    where the geometry converts, the feature returns, it adds the objects
    its geometry stands for, under the attributes of the layer step, which
    hold no user string, and it appends the value that holds their
    identifiers; in a collection whose features are all of supported kinds,
    [processGeoJson] returns, these objects are in the document it leaves
    and the feature's place in the result holds their identifiers.  However
    the feature ends, no object it creates has a user string. *)
Theorem empty_properties_skipped (jsonFeature : json) :
  subscript jsonFeature (JStr "properties") = Ok (JObj []) ->
  (forall att, processGeoJson_properties jsonFeature att = Ok att) /\
  (forall geoms destinationLayer color guidResults d,
      feature_objects jsonFeature = Ok geoms ->
      exists att d1 v,
        processGeoJson_layer (layer_arg destinationLayer) color
          new_ObjectAttributes d = (Ok att, d1) /\
        UserStrings att = ∅ /\
        processGeoJson_feature (layer_arg destinationLayer) color jsonFeature
          guidResults d
        = (Ok (guidResults ++ [v]),
           mkDocument (Layers d1)
             (Objects d ++ map (fun g => mkRhinoObject g att) geoms)) /\
        entry_shape jsonFeature v = true /\
        identifiers_of v = seq (length (Objects d)) (length geoms)) /\
  (forall parsedGeoJson features (i : nat) destinationLayer color d,
      subscript parsedGeoJson (JStr "features") = Ok (JArr features) ->
      features !! i = Some jsonFeature ->
      forallb supported_feature features = true ->
      exists r d' v att geoms before after,
        processGeoJson parsedGeoJson (layer_arg destinationLayer) color d
        = (Ok r, d') /\
        r !! i = Some v /\
        feature_objects jsonFeature = Ok geoms /\
        UserStrings att = ∅ /\
        Objects d' = before ++ map (fun g => mkRhinoObject g att) geoms ++ after /\
        identifiers_of v = seq (length before) (length geoms)) /\
  (forall destinationLayer color guidResults,
      within (grows (fun o => UserStrings (Attributes o) = ∅))
        (processGeoJson_feature destinationLayer color jsonFeature guidResults)).
Proof.
  intros Hp.
  assert (forall att, processGeoJson_properties jsonFeature att = Ok att) as Hskip.
  { intros att. unfold processGeoJson_properties. by rewrite Hp. }
  assert (usable_properties jsonFeature = true) as Hprops.
  { unfold usable_properties. by rewrite Hp. }
  split; [exact Hskip|]. split; [|split].
  - intros geoms destinationLayer color guidResults d Hobjects.
    destruct (processGeoJson_feature_adds destinationLayer color jsonFeature
                geoms guidResults d Hprops Hobjects)
      as (att1 & d1 & att' & v & Hlayer & Hus & Hatt' & Hrun & Hshape & Hids).
    rewrite Hskip in Hatt'. injection Hatt' as <-.
    by exists att1, d1, v.
  - intros parsedGeoJson features i destinationLayer color d Hfs Hi Hall.
    destruct (processGeoJson_feature_at parsedGeoJson features i jsonFeature
                destinationLayer color d Hfs Hi Hall)
      as (r & d' & v & att1 & att' & geoms & before & after
          & Hrun & Hv & Hobjects & Hus & Hatt' & Hdoc & Hids).
    rewrite Hskip in Hatt'. injection Hatt' as <-.
    by exists r, d', v, att1, geoms, before, after.
  - intros destinationLayer color guidResults.
    apply (processGeoJson_feature_grows _ _ _ _ (fun a => UserStrings a = ∅)).
    intros att att' Hempty. rewrite Hskip. congruence.
Qed.

(** C8. A feature with a properties mapping gets one user string per entry,
    keyed by the entry's key and holding [str] of its value.  The copying
    returns, and the attributes it gives hold exactly these user strings.
    Where the geometry converts, the feature returns and adds the objects
    its geometry stands for under these attributes; in a collection whose
    features are all of supported kinds, [processGeoJson] returns, these
    objects are in the document it leaves and the feature's place in the
    result holds their identifiers.  Whenever [processGeoJson] returns, the
    identifiers in the feature's place name objects that carry these user
    strings, and however the feature ends, every object it creates carries
    them.  With [str(0.0)] being "0.0", the entry "prop1": 0.0 becomes the
    user string "prop1" = "0.0". *)
Theorem properties_become_user_strings (jsonFeature : json)
    (members : list (string * json)) :
  subscript jsonFeature (JStr "properties") = Ok (JObj members) ->
  NoDup (map fst members) ->
  exists us : gmap string string,
    (forall k v, (k, v) ∈ members -> us !! k = Some (str v)) /\
    size us = length members /\
    (forall att, UserStrings att = ∅ ->
       exists att', processGeoJson_properties jsonFeature att = Ok att' /\
                    UserStrings att' = us /\
                    LayerIndex att' = LayerIndex att) /\
    (forall geoms destinationLayer color guidResults d,
        feature_objects jsonFeature = Ok geoms ->
        exists att' d1 v,
          UserStrings att' = us /\
          processGeoJson_feature (layer_arg destinationLayer) color jsonFeature
            guidResults d
          = (Ok (guidResults ++ [v]),
             mkDocument (Layers d1)
               (Objects d ++ map (fun g => mkRhinoObject g att') geoms)) /\
          identifiers_of v = seq (length (Objects d)) (length geoms)) /\
    (forall parsedGeoJson features (i : nat) destinationLayer color d,
        subscript parsedGeoJson (JStr "features") = Ok (JArr features) ->
        features !! i = Some jsonFeature ->
        forallb supported_feature features = true ->
        exists r d' v att' geoms before after,
          processGeoJson parsedGeoJson (layer_arg destinationLayer) color d
          = (Ok r, d') /\
          r !! i = Some v /\
          feature_objects jsonFeature = Ok geoms /\
          UserStrings att' = us /\
          Objects d'
          = before ++ map (fun g => mkRhinoObject g att') geoms ++ after /\
          identifiers_of v = seq (length before) (length geoms)) /\
    (forall parsedGeoJson features (i : nat) destinationLayer color d r d',
        subscript parsedGeoJson (JStr "features") = Ok (JArr features) ->
        features !! i = Some jsonFeature ->
        processGeoJson parsedGeoJson destinationLayer color d = (Ok r, d') ->
        exists v, r !! i = Some v /\
          Forall (fun g => exists o, Objects d' !! g = Some o /\
                                     UserStrings (Attributes o) = us)
            (identifiers_of v)) /\
    (forall destinationLayer color guidResults,
        within (grows (fun o => UserStrings (Attributes o) = us))
          (processGeoJson_feature destinationLayer color jsonFeature guidResults)) /\
    (str (JFloat 0) = "0.0" -> ("prop1", JFloat 0) ∈ members ->
     us !! "prop1" = Some "0.0").
Proof.
  intros Hp Hnd.
  destruct (properties_user_strings jsonFeature members Hp Hnd)
    as (us & Hentries & Hsize & Hus).
  assert (usable_properties jsonFeature = true) as Hprops.
  { unfold usable_properties. by rewrite Hp. }
  exists us. split; [exact Hentries|]. split; [exact Hsize|].
  split; [|split; [|split; [|split; [|split]]]].
  - intros att Hempty.
    destruct (processGeoJson_properties_dict jsonFeature members att Hp)
      as (att' & Hatt' & Hindex & _).
    exists att'. split; [exact Hatt'|]. split; [by eapply Hus | exact Hindex].
  - intros geoms destinationLayer color guidResults d Hobjects.
    destruct (processGeoJson_feature_adds destinationLayer color jsonFeature
                geoms guidResults d Hprops Hobjects)
      as (att1 & d1 & att' & v & Hlayer & Hempty & Hatt' & Hrun & Hshape & Hids).
    exists att', d1, v. split; [by eapply Hus|]. by split.
  - intros parsedGeoJson features i destinationLayer color d Hfs Hi Hall.
    destruct (processGeoJson_feature_at parsedGeoJson features i jsonFeature
                destinationLayer color d Hfs Hi Hall)
      as (r & d' & v & att1 & att' & geoms & before & after
          & Hrun & Hv & Hobjects & Hempty & Hatt' & Hdoc & Hids).
    exists r, d', v, att', geoms, before, after.
    split; [exact Hrun|]. split; [exact Hv|]. split; [exact Hobjects|].
    split; [by eapply Hus|]. by split.
  - intros parsedGeoJson features i destinationLayer color d r d' Hfs Hi Hrun.
    rewrite (processGeoJson_run _ _ _ _ _ Hfs) in Hrun.
    destruct (features_created _ _ _ _ _ _ _ Hrun) as (vs & -> & HF).
    destruct (Forall2_lookup_l _ _ _ _ _ HF Hi)
      as (v & Hv & att1 & att' & Hempty & Hatt' & Hobjs).
    exists v. split; [exact Hv|].
    eapply Forall_impl; [exact Hobjs|]. intros g (o & Ho & Hatt).
    exists o. split; [exact Ho|]. rewrite Hatt. by eapply Hus.
  - intros destinationLayer color guidResults.
    by apply (processGeoJson_feature_grows _ _ _ _ (fun a => UserStrings a = us)).
  - intros Hstr Hin. rewrite (Hentries _ _ Hin). by rewrite Hstr.
Qed.

End Carried.

(** ** [processGeoJson] *)



(** ** Kinds without a converter *)

(** C7, as the code has it. A feature whose geometry tag is a string the
    converter table does not have (the feature being otherwise usable:
    properties that copy, a geometry with its type) makes [processGeoJson]
    fail, and no object is created for it.  When the geometry has a
    coordinates entry, the failure is the key error of the table lookup, at
    the point of dispatch; when it has none, the failure is the key error
    for 'coordinates', raised before the table is consulted. *)
Theorem unknown_geometry_type_is_KeyError `{PythonRuntime}
    (parsedGeoJson : json) (pre post : list json)
    (jsonFeature geom : json) (geomType : string)
    (destinationLayer : option string) (color : Drawing.Color)
    (d d1 : Document) (guidResults : list value) :
  subscript parsedGeoJson (JStr "features")
  = Ok (JArr (pre ++ jsonFeature :: post)) ->
  for_each pre (processGeoJson_feature (layer_arg destinationLayer) color) [] d
  = (Ok guidResults, d1) ->
  usable_properties jsonFeature = true ->
  subscript jsonFeature (JStr "geometry") = Ok geom ->
  subscript geom (JStr "type") = Ok (JStr geomType) ->
  dict_get geoJsonGeometryMap geomType = None ->
  exists e d2,
    processGeoJson parsedGeoJson (layer_arg destinationLayer) color d
    = (Raise e, d2) /\
    Objects d2 = Objects d1 /\
    e = (if is_ok (subscript geom (JStr "coordinates"))
         then unsupported_geometry_kind geomType
         else KeyError (JStr "coordinates")).
Proof.
  intros Hfs Hpre Hprops Hgeom Htype Hkey.
  set (e := if is_ok (subscript geom (JStr "coordinates"))
            then unsupported_geometry_kind geomType
            else KeyError (JStr "coordinates")).
  destruct (processGeoJson_feature_raises destinationLayer color jsonFeature
              guidResults d1 e Hprops) as (d2 & Hrun & Hobj).
  { intros att d0. unfold processGeoJson_geometry.
    rewrite (bind_lift_Ok _ _ _ _ Hgeom), (bind_lift_Ok _ _ _ _ Htype).
    destruct (subscript_str_dict _ _ _ Htype) as [members ->]. subst e.
    cbn [subscript dict_subscript].
    destruct (dict_get members "coordinates") as [c|]; cbn [is_ok].
    - rewrite (bind_lift_Ok _ _ _ c eq_refl).
      apply bind_lift_Raise. unfold dict_subscript. by rewrite Hkey.
    - by apply bind_lift_Raise. }
  exists e, d2. split; [by eapply processGeoJson_raises_at|].
  by split.
Qed.

(** C7, as stated, fails on a feature of an unknown kind that has no
    coordinates, as a circle given by center and radius: the failure is the
    key error for 'coordinates', raised before the dispatch, and not the
    lookup failure of the tag. *)
Lemma unknown_kind_fails_before_dispatch :
  geometry_type circleByCenter = Some "Circle" /\
  dict_get geoJsonGeometryMap "Circle" = None /\
  (@processGeoJson sample_runtime (featureCollection [circleByCenter])
     JNull Drawing.Black empty_document).1
  = Raise (KeyError (JStr "coordinates")) /\
  KeyError (JStr "coordinates") <> unsupported_geometry_kind "Circle".
Proof. repeat split; (vm_compute; reflexivity) || discriminate. Qed.

(** C3, as the code has it. A feature whose geometry tag is
    'GeometryCollection' makes [processGeoJson] fail, and no object is
    created for it, but the failure is not the one of an unsupported tag:
    the tag is a key of the table.  Without a 'coordinates' entry (as
    GeoJSON writes such a geometry) the failure is the key error for
    'coordinates'; with one, it is the type error of subscripting the
    table's entry, a function and no pair. *)
Theorem GeometryCollection_fails_unsignalled `{PythonRuntime}
    (parsedGeoJson : json) (pre post : list json)
    (jsonFeature geom : json)
    (destinationLayer : option string) (color : Drawing.Color)
    (d d1 : Document) (guidResults : list value) :
  subscript parsedGeoJson (JStr "features")
  = Ok (JArr (pre ++ jsonFeature :: post)) ->
  for_each pre (processGeoJson_feature (layer_arg destinationLayer) color) [] d
  = (Ok guidResults, d1) ->
  usable_properties jsonFeature = true ->
  subscript jsonFeature (JStr "geometry") = Ok geom ->
  subscript geom (JStr "type") = Ok (JStr "GeometryCollection") ->
  exists e d2,
    processGeoJson parsedGeoJson (layer_arg destinationLayer) color d
    = (Raise e, d2) /\
    Objects d2 = Objects d1 /\
    e = (if is_ok (subscript geom (JStr "coordinates")) then TypeError
         else KeyError (JStr "coordinates")) /\
    e <> unsupported_geometry_kind "GeometryCollection".
Proof.
  intros Hfs Hpre Hprops Hgeom Htype.
  set (e := if is_ok (subscript geom (JStr "coordinates")) then TypeError
            else KeyError (JStr "coordinates")).
  destruct (processGeoJson_feature_raises destinationLayer color jsonFeature
              guidResults d1 e Hprops) as (d2 & Hrun & Hobj).
  { intros att d0. unfold processGeoJson_geometry.
    rewrite (bind_lift_Ok _ _ _ _ Hgeom), (bind_lift_Ok _ _ _ _ Htype).
    destruct (subscript_str_dict _ _ _ Htype) as [members ->]. subst e.
    cbn [subscript dict_subscript].
    destruct (dict_get members "coordinates") as [c|]; cbn [is_ok].
    - rewrite (bind_lift_Ok _ _ _ c eq_refl).
      assert (dict_subscript geoJsonGeometryMap (JStr "GeometryCollection")
              = Ok (Function GeometryCollectionToParser)) as He by reflexivity.
      by rewrite (bind_lift_Ok _ _ _ _ He).
    - by apply bind_lift_Raise. }
  exists e, d2. split; [by eapply processGeoJson_raises_at|].
  split; [exact Hobj|]. split; [reflexivity|].
  subst e. by destruct (is_ok _).
Qed.

(** C3, as stated, fails on a GeometryCollection feature: the failure is the
    key error for 'coordinates', which any geometry without coordinates
    gives, and a type error when coordinates are present; neither is the
    signal of an unsupported tag. *)
Lemma GeometryCollection_not_signalled :
  (@processGeoJson sample_runtime (featureCollection [geometryCollectionFeature])
     JNull Drawing.Black empty_document).1
  = Raise (KeyError (JStr "coordinates")) /\
  (@processGeoJson sample_runtime
     (featureCollection [geometryCollectionWithCoordinates])
     JNull Drawing.Black empty_document).1
  = Raise TypeError /\
  KeyError (JStr "coordinates") <> unsupported_geometry_kind "GeometryCollection" /\
  TypeError <> unsupported_geometry_kind "GeometryCollection".
Proof. repeat split; (vm_compute; reflexivity) || discriminate. Qed.

(** ** [loadLayers] *)

(** C9, where the code departs from it: a layer key whose collection has no
    feature gets its (empty) result list and no layer; the document is left
    as it was, so on a document without layers there is no layer of the
    key's name afterwards. *)
Theorem loadLayers_empty_collection_no_layer `{PythonRuntime} (d : Document) :
  loadLayers emptyLayer d = (Ok [[]], d) /\
  layers_named "empty" (loadLayers emptyLayer empty_document).2 = [].
Proof. split; reflexivity. Qed.

(** ** Layers of [loadLayers] *)

#[local] Instance names_kept_preorder : PreOrder names_kept.
Proof.
  split.
  - intros d. exists []. by rewrite app_nil_r.
  - intros d1 d2 d3 [m1 H1] [m2 H2]. exists (m1 ++ m2).
    by rewrite H2, H1, <- app_assoc.
Qed.

Lemma has_layer_kept layerName d d' :
  names_kept d d' -> has_layer layerName d -> has_layer layerName d'.
Proof.
  unfold has_layer. intros [more ->] Hin. apply elem_of_app. by left.
Qed.

(** [addRhinoLayer] drops no layer and leaves one of the requested name. *)
Lemma addRhinoLayer_names layerName layerColor d :
  names_kept d (addRhinoLayer layerName layerColor d).2 /\
  has_layer layerName (addRhinoLayer layerName layerColor d).2.
Proof.
  unfold names_kept, has_layer.
  destruct (find_layer layerName (Layers d)) as [i|] eqn:Hfind.
  - destruct (find_layer_Some _ _ _ Hfind) as (pre & l & post & Hd & _ & Hl & Hpre).
    rewrite (addRhinoLayer_existing _ layerColor _ _ _ _ Hd Hl Hpre).
    cbn [snd Layers]. rewrite Hd, !map_app. cbn [map Name]. rewrite Hl. split.
    + exists []. by rewrite app_nil_r.
    + apply elem_of_app. right. by left.
  - rewrite (addRhinoLayer_new _ layerColor _ Hfind). cbn [snd Layers].
    rewrite map_app. split; [by eexists|].
    apply elem_of_app. right. by left.
Qed.

Lemma processGeoJson_layer_names destinationLayer color att :
  within names_kept (processGeoJson_layer destinationLayer color att).
Proof.
  intros d. destruct destinationLayer as [| | | |layerName| |]; try reflexivity.
  cbn [processGeoJson_layer]. rewrite bind_ret_document.
  apply addRhinoLayer_names.
Qed.

Lemma processGeoJson_geometry_names jsonFeature att :
  within names_kept (processGeoJson_geometry jsonFeature att).
Proof.
  intros d.
  destruct (processGeoJson_geometry_outcome jsonFeature att d) as (geoms & -> & _).
  exists []. by rewrite app_nil_r.
Qed.

Section Layered.

Context `{PythonRuntime}.

Lemma processGeoJson_feature_names destinationLayer color jsonFeature guidResults :
  within names_kept
    (processGeoJson_feature destinationLayer color jsonFeature guidResults).
Proof.
  unfold processGeoJson_feature.
  apply within_bind; [exact _ | apply processGeoJson_layer_names |]. intros att1.
  apply within_bind; [exact _ | apply within_lift; exact _ |]. intros att.
  apply within_bind; [exact _ | apply processGeoJson_geometry_names |]. intros v.
  apply within_ret; exact _.
Qed.

(** A feature processed under a layer name leaves a layer of that name,
    however the feature ends. *)
Lemma processGeoJson_feature_has_layer layerName color jsonFeature guidResults d :
  has_layer layerName
    (processGeoJson_feature (JStr layerName) color jsonFeature guidResults d).2.
Proof.
  unfold processGeoJson_feature. cbn [processGeoJson_layer].
  destruct (addRhinoLayer_names layerName color d) as [_ Hhas].
  unfold bind at 1. unfold bind at 1.
  destruct (addRhinoLayer layerName color d) as [[i|e] d1]; [|exact Hhas].
  cbn [snd] in Hhas. unfold ret at 1.
  eapply has_layer_kept; [|exact Hhas].
  pose proof (within_bind names_kept
                (lift (processGeoJson_properties jsonFeature
                         (set_LayerIndex new_ObjectAttributes i)))
                (fun att => let* v := processGeoJson_geometry jsonFeature att in
                            ret (guidResults ++ [v]))) as Hw.
  apply Hw; [apply within_lift; exact _|]. intros att.
  apply within_bind; [exact _ | apply processGeoJson_geometry_names |]. intros v.
  apply within_ret; exact _.
Qed.

Lemma features_have_layer layerName color features guidResults d :
  features <> [] ->
  has_layer layerName
    (for_each features (processGeoJson_feature (JStr layerName) color)
       guidResults d).2.
Proof.
  destruct features as [|f fs]; [done|]. intros _. cbn [for_each].
  pose proof (processGeoJson_feature_has_layer layerName color f guidResults d)
    as Hhas.
  unfold bind.
  destruct (processGeoJson_feature (JStr layerName) color f guidResults d)
    as [[acc|e] d1]; [|exact Hhas].
  cbn [snd] in Hhas. eapply has_layer_kept; [|exact Hhas].
  apply (within_for_each names_kept).
  intros x a. apply processGeoJson_feature_names.
Qed.

(** The loop of [loadLayers] over entries of the mapping it reads from. *)
Lemma loadLayers_loop (members entries : list (string * json)) allResults d :
  NoDup (map fst members) ->
  entries ⊆ members ->
  forallb (fun kv => supported_collection kv.2) entries = true ->
  exists layerLists d',
    for_each (map (fun kv => JStr kv.1) entries)
      (fun layerKey allResults =>
         let* collection := lift (subscript (JObj members) layerKey) in
         let* layerResults := processGeoJson collection layerKey Drawing.Black in
         ret (allResults ++ [layerResults]))
      allResults d
    = (Ok (allResults ++ layerLists), d') /\
    names_kept d d' /\
    Forall2
      (fun kv layerResults =>
         Forall2 (fun jsonFeature v => entry_shape jsonFeature v = true)
           (collection_features kv.2) layerResults /\
         (collection_features kv.2 <> [] -> has_layer kv.1 d'))
      entries layerLists.
Proof.
  intros Hnd. revert allResults d.
  induction entries as [|[k c] rest IH]; intros acc d Hsub Hall.
  - exists [], d. rewrite app_nil_r. repeat split; [reflexivity | constructor].
  - cbn [forallb] in Hall. apply andb_prop in Hall as [Hc Hrest].
    assert (dict_get members k = Some c) as Hget.
    { apply dict_get_NoDup; [exact Hnd|]. apply Hsub. by left. }
    unfold supported_collection in Hc. cbn [snd] in Hc.
    destruct (subscript c (JStr "features")) as [[| | | | |fs|]|] eqn:Hfs;
      try discriminate.
    destruct (features_return (Some k) Drawing.Black fs [] d Hc)
      as (vs & d1 & n & Hrun & HF & _ & _).
    assert (names_kept d d1 /\ (fs <> [] -> has_layer k d1)) as [Hkept Hhas].
    { split.
      - pose proof (within_for_each names_kept fs
                      (processGeoJson_feature (JStr k) Drawing.Black) []
                      (fun x a => processGeoJson_feature_names _ _ x a) d) as Hw.
        cbn [layer_arg] in Hrun. by rewrite Hrun in Hw.
      - intros Hne.
        pose proof (features_have_layer k Drawing.Black fs [] d Hne) as Hl.
        cbn [layer_arg] in Hrun. by rewrite Hrun in Hl. }
    destruct (IH (acc ++ [vs]) d1) as (ls & d' & Hloop & Hkept' & HF').
    { intros x Hx. apply Hsub. by right. }
    { exact Hrest. }
    exists (vs :: ls), d'. cbn [map for_each fst].
    assert (subscript (JObj members) (JStr k) = Ok c) as Hsubscript.
    { unfold subscript, dict_subscript. by rewrite Hget. }
    rewrite (bind_Ok _ _ d (acc ++ [vs]) d1).
    2: { rewrite (bind_lift_Ok _ _ _ _ Hsubscript).
         rewrite (bind_Ok _ _ _ _ _
                    (eq_trans (processGeoJson_run c fs (JStr k) Drawing.Black d Hfs)
                       Hrun)).
         reflexivity. }
    rewrite Hloop, <- app_assoc. split; [reflexivity|].
    split; [by etransitivity|].
    constructor; [|exact HF'].
    unfold collection_features. cbn [snd fst]. rewrite Hfs. split; [exact HF|].
    intros Hne. eapply has_layer_kept; [exact Hkept' | by apply Hhas].
Qed.

(** X1. [loadLayers] on a mapping from layer names to collections of supported
    features, pre-parsed or as text that decodes to it: it returns one result
    list per key, in the mapping's order, each with one entry per feature of
    that key's collection; every key whose collection has a feature has a
    layer of its name afterwards. *)
Theorem loadLayers_one_list_per_key (members : list (string * json))
    (d : Document) :
  NoDup (map fst members) ->
  forallb (fun kv => supported_collection kv.2) members = true ->
  exists allResults d',
    loadLayers (JObj members) d = (Ok allResults, d') /\
    (forall text, json_loads text = Ok (JObj members) ->
                  loadLayers (JStr text) d = (Ok allResults, d')) /\
    Forall2
      (fun kv layerResults =>
         Forall2 (fun jsonFeature v => entry_shape jsonFeature v = true)
           (collection_features kv.2) layerResults /\
         (collection_features kv.2 <> [] -> has_layer kv.1 d'))
      members allResults.
Proof.
  intros Hnd Hall.
  destruct (loadLayers_loop members members [] d Hnd (reflexivity _) Hall)
    as (ls & d' & Hloop & _ & HF).
  exists ls, d'. split; [|split; [|exact HF]].
  - unfold loadLayers. rewrite bind_ret.
    by rewrite (bind_lift_Ok _ _ _ _ (eq_refl : iter (JObj members) = Ok _)).
  - intros text Htext. unfold loadLayers.
    rewrite (bind_lift_Ok _ _ _ _ Htext).
    by rewrite (bind_lift_Ok _ _ _ _ (eq_refl : iter (JObj members) = Ok _)).
Qed.

End Layered.

(** ** The theorems at work on the worked inputs *)

Lemma MultiPolygon_identifier_count_witness :
  exists polygonList guidList d',
    MultiPolygonToRhinoCurve (JArr samplePolygons) = Ok polygonList /\
    addPolygons polygonList new_ObjectAttributes empty_document
    = (Ok guidList, d') /\
    length guidList = 3%nat /\
    length (Objects d') = (0 + length (omap id guidList))%nat /\
    (forallb is_paths samplePolygons = true ->
     guidList = map Some (seq 0 3) /\ length (Objects d') = (0 + 3)%nat).
Proof.
  apply (MultiPolygon_identifier_count samplePolygons new_ObjectAttributes
           empty_document).
  reflexivity.
Defined.

Lemma addRhinoLayer_twice_witness :
  exists i1 d1 i2 d2,
    addRhinoLayer "roads" Drawing.Black roadsDocument = (Ok i1, d1) /\
    addRhinoLayer "roads" (Drawing.FromArgb 255 0 0 255) d1 = (Ok i2, d2) /\
    layers_named "roads" d2 = [mkLayer "roads" (Drawing.FromArgb 255 0 0 255)] /\
    i2 = i1 /\ 0 <= i2 /\
    Layers d2 !! Z.to_nat i2
    = Some (mkLayer "roads" (Drawing.FromArgb 255 0 0 255)) /\
    length (Layers d2) = length (Layers d1).
Proof.
  apply (addRhinoLayer_twice "roads" Drawing.Black
           (Drawing.FromArgb 255 0 0 255) roadsDocument).
  vm_compute. lia.
Defined.

Lemma empty_properties_skipped_witness :
  (forall att, @processGeoJson_properties sample_runtime bareFeature att = Ok att) /\
  (forall geoms destinationLayer color guidResults d,
      feature_objects bareFeature = Ok geoms ->
      exists att d1 v,
        processGeoJson_layer (layer_arg destinationLayer) color
          new_ObjectAttributes d = (Ok att, d1) /\
        UserStrings att = ∅ /\
        @processGeoJson_feature sample_runtime (layer_arg destinationLayer) color
          bareFeature guidResults d
        = (Ok (guidResults ++ [v]),
           mkDocument (Layers d1)
             (Objects d ++ map (fun g => mkRhinoObject g att) geoms)) /\
        entry_shape bareFeature v = true /\
        identifiers_of v = seq (length (Objects d)) (length geoms)) /\
  (forall parsedGeoJson features (i : nat) destinationLayer color d,
      subscript parsedGeoJson (JStr "features") = Ok (JArr features) ->
      features !! i = Some bareFeature ->
      forallb supported_feature features = true ->
      exists r d' v att geoms before after,
        @processGeoJson sample_runtime parsedGeoJson (layer_arg destinationLayer)
          color d = (Ok r, d') /\
        r !! i = Some v /\
        feature_objects bareFeature = Ok geoms /\
        UserStrings att = ∅ /\
        Objects d' = before ++ map (fun g => mkRhinoObject g att) geoms ++ after /\
        identifiers_of v = seq (length before) (length geoms)) /\
  (forall destinationLayer color guidResults,
      within (grows (fun o => UserStrings (Attributes o) = ∅))
        (@processGeoJson_feature sample_runtime destinationLayer color
           bareFeature guidResults)).
Proof.
  apply (@empty_properties_skipped sample_runtime bareFeature). reflexivity.
Defined.

Lemma properties_become_user_strings_witness :
  exists us : gmap string string,
    (forall k v, (k, v) ∈ [("prop1", JFloat 0)] -> us !! k = Some (sample_str v)) /\
    size us = 1%nat /\
    (forall att, UserStrings att = ∅ ->
       exists att', @processGeoJson_properties sample_runtime prop1Feature att
                    = Ok att' /\
                    UserStrings att' = us /\
                    LayerIndex att' = LayerIndex att) /\
    (forall geoms destinationLayer color guidResults d,
        feature_objects prop1Feature = Ok geoms ->
        exists att' d1 v,
          UserStrings att' = us /\
          @processGeoJson_feature sample_runtime (layer_arg destinationLayer)
            color prop1Feature guidResults d
          = (Ok (guidResults ++ [v]),
             mkDocument (Layers d1)
               (Objects d ++ map (fun g => mkRhinoObject g att') geoms)) /\
          identifiers_of v = seq (length (Objects d)) (length geoms)) /\
    (forall parsedGeoJson features (i : nat) destinationLayer color d,
        subscript parsedGeoJson (JStr "features") = Ok (JArr features) ->
        features !! i = Some prop1Feature ->
        forallb supported_feature features = true ->
        exists r d' v att' geoms before after,
          @processGeoJson sample_runtime parsedGeoJson
            (layer_arg destinationLayer) color d = (Ok r, d') /\
          r !! i = Some v /\
          feature_objects prop1Feature = Ok geoms /\
          UserStrings att' = us /\
          Objects d'
          = before ++ map (fun g => mkRhinoObject g att') geoms ++ after /\
          identifiers_of v = seq (length before) (length geoms)) /\
    (forall parsedGeoJson features (i : nat) destinationLayer color d r d',
        subscript parsedGeoJson (JStr "features") = Ok (JArr features) ->
        features !! i = Some prop1Feature ->
        @processGeoJson sample_runtime parsedGeoJson destinationLayer color d
        = (Ok r, d') ->
        exists v, r !! i = Some v /\
          Forall (fun g => exists o, Objects d' !! g = Some o /\
                                     UserStrings (Attributes o) = us)
            (identifiers_of v)) /\
    (forall destinationLayer color guidResults,
        within (grows (fun o => UserStrings (Attributes o) = us))
          (@processGeoJson_feature sample_runtime destinationLayer color
             prop1Feature guidResults)) /\
    (sample_str (JFloat 0) = "0.0" -> ("prop1", JFloat 0) ∈ [("prop1", JFloat 0)] ->
     us !! "prop1" = Some "0.0").
Proof.
  apply (@properties_become_user_strings sample_runtime prop1Feature
           [("prop1", JFloat 0)]).
  - reflexivity.
  - apply NoDup_singleton.
Defined.


Lemma unknown_geometry_type_is_KeyError_witness :
  exists e d2,
    @processGeoJson sample_runtime (featureCollection [bareFeature; circleFeature])
      JNull Drawing.Black empty_document
    = (Raise e, d2) /\
    Objects d2
    = Objects (for_each [bareFeature]
                 (@processGeoJson_feature sample_runtime JNull Drawing.Black) []
                 empty_document).2 /\
    e = KeyError (JStr "Circle").
Proof.
  apply (@unknown_geometry_type_is_KeyError sample_runtime
           (featureCollection [bareFeature; circleFeature])
           [bareFeature] [] circleFeature
           (JObj [("type", JStr "Circle"); ("coordinates", position 0 0)])
           "Circle" None Drawing.Black empty_document
           (for_each [bareFeature]
              (@processGeoJson_feature sample_runtime JNull Drawing.Black) []
              empty_document).2
           [VGuid 0%nat]);
    vm_compute; reflexivity.
Defined.

Lemma GeometryCollection_fails_unsignalled_witness :
  exists e d2,
    @processGeoJson sample_runtime
      (featureCollection [bareFeature; geometryCollectionFeature])
      JNull Drawing.Black empty_document
    = (Raise e, d2) /\
    Objects d2
    = Objects (for_each [bareFeature]
                 (@processGeoJson_feature sample_runtime JNull Drawing.Black) []
                 empty_document).2 /\
    e = KeyError (JStr "coordinates") /\
    e <> unsupported_geometry_kind "GeometryCollection".
Proof.
  apply (@GeometryCollection_fails_unsignalled sample_runtime
           (featureCollection [bareFeature; geometryCollectionFeature])
           [bareFeature] [] geometryCollectionFeature
           (JObj [ ("type", JStr "GeometryCollection");
                   ("geometries",
                    JArr [JObj [("type", JStr "Point");
                                ("coordinates", position 102 0.5)]]) ])
           None Drawing.Black empty_document
           (for_each [bareFeature]
              (@processGeoJson_feature sample_runtime JNull Drawing.Black) []
              empty_document).2
           [VGuid 0%nat]);
    vm_compute; reflexivity.
Defined.

Lemma loadLayers_one_list_per_key_witness :
  exists allResults d',
    @loadLayers sample_runtime (JObj twoLayers) empty_document
    = (Ok allResults, d') /\
    (forall text, sample_loads text = Ok (JObj twoLayers) ->
                  @loadLayers sample_runtime (JStr text) empty_document
                  = (Ok allResults, d')) /\
    Forall2
      (fun kv layerResults =>
         Forall2 (fun jsonFeature v => entry_shape jsonFeature v = true)
           (collection_features kv.2) layerResults /\
         (collection_features kv.2 <> [] -> has_layer kv.1 d'))
      twoLayers allResults.
Proof.
  apply (@loadLayers_one_list_per_key sample_runtime twoLayers empty_document).
  - apply (bool_decide_unpack _). vm_compute. reflexivity.
  - reflexivity.
Defined.

(** * More of the module *)

(** ** What the converters accept *)

Lemma seq_item_0 x rest : seq_item (x :: rest) 0 = Ok x.
Proof.
  unfold seq_item. change 0 with (Z.of_nat 0). by rewrite seq_get_nat.
Qed.

Lemma seq_item_1 x y rest : seq_item (x :: y :: rest) 1 = Ok y.
Proof.
  unfold seq_item. change 1 with (Z.of_nat 1). by rewrite seq_get_nat.
Qed.

Lemma new_Point3d_numbers x y z :
  is_ok (new_Point3d x y z) = is_number x && is_number y.
Proof. unfold new_Point3d. destruct x, y; reflexivity. Qed.

(** X2. [PointToRhinoPoint] returns exactly on the lists that start with two
    numbers.  A list with fewer than two elements is an index error, a list
    whose first two elements are not both numbers is a type error of the
    point constructor, and a dict is the key error of its missing key 0. *)
Theorem PointToRhinoPoint_accepts :
  (forall v, is_ok (PointToRhinoPoint v) = is_position v) /\
  (forall items, (length items < 2)%nat ->
                 PointToRhinoPoint (JArr items) = Raise IndexError) /\
  (forall x y rest, is_number x && is_number y = false ->
                    PointToRhinoPoint (JArr (x :: y :: rest)) = Raise TypeError) /\
  (forall members, PointToRhinoPoint (JObj members) = Raise (KeyError (JInt 0))).
Proof.
  split; [|split; [|split]].
  - intros [| | | |s|items|members]; try reflexivity.
    + destruct s as [|c0 [|c1 s']]; try reflexivity.
      unfold PointToRhinoPoint, subscript. cbn [chars].
      by rewrite seq_item_0, seq_item_1.
    + destruct items as [|x [|y rest]]; try reflexivity.
      rewrite PointToRhinoPoint_pair. apply new_Point3d_numbers.
  - intros [|x [|y rest]] Hlen; try reflexivity. simpl in Hlen. lia.
  - intros x y rest Hxy. rewrite PointToRhinoPoint_pair.
    unfold new_Point3d. destruct x, y; try discriminate; reflexivity.
  - reflexivity.
Qed.

Lemma PointToRhinoPoint_elevation v p :
  PointToRhinoPoint v = Ok p -> PZ p = 0%float.
Proof.
  unfold PointToRhinoPoint, new_Point3d.
  destruct (subscript v (JInt 0)) as [x|]; [|discriminate].
  destruct (subscript v (JInt 1)) as [y|]; [|discriminate].
  cbn [res_bind].
  destruct (to_double x); [|discriminate]. destruct (to_double y); [|discriminate].
  by intros [= <-].
Qed.

Lemma collect_list {B} (p : json -> bool) (f : json -> res B) (items : list json) :
  (forall x, p x = true -> exists y, f x = Ok y) ->
  forallb p items = true ->
  exists ys,
    Forall2 (fun x y => f x = Ok y) items ys /\
    for_res items (fun x acc => let? y := f x in Ok (acc ++ [y])) [] = Ok ys.
Proof.
  intros Hf Hall.
  destruct (collect_items p f (JArr items) Hf Hall)
    as (items' & ys & [= <-] & HF & Hrun).
  exists ys. by split.
Qed.

(** X3. A LineString payload of positions hands the host's curve
    construction the converted positions as control points, one per position
    and in the payload's order, each with elevation zero, and degree 1.
    From two positions on, the result is the curve of degree 1 with these
    control points; from fewer, the host builds no curve and the result is
    none. *)
Theorem LineStringToRhinoCurve_control_points (positions : list json) :
  forallb is_position positions = true ->
  exists rhPoints,
    Forall2 (fun pair p => PointToRhinoPoint pair = Ok p) positions rhPoints /\
    Forall (fun p => PZ p = 0%float) rhPoints /\
    LineStringToRhinoCurve (JArr positions)
    = Ok (CreateControlPointCurve rhPoints 1) /\
    ((2 <= length positions)%nat ->
     LineStringToRhinoCurve (JArr positions) = Ok (Some (mkCurve rhPoints 1))) /\
    ((length positions < 2)%nat ->
     LineStringToRhinoCurve (JArr positions) = Ok None).
Proof.
  intros Hall.
  destruct (collect_list is_position PointToRhinoPoint positions
              PointToRhinoPoint_position Hall) as (ps & HF & Hrun).
  assert (LineStringToRhinoCurve (JArr positions)
          = Ok (CreateControlPointCurve ps 1)) as Hcurve.
  { unfold LineStringToRhinoCurve, MultiPointToRhinoPoint. cbn [iter res_bind].
    by rewrite Hrun. }
  pose proof (Forall2_length _ _ _ HF) as Hlen.
  exists ps. split; [exact HF|]. split; [|split; [exact Hcurve|split]].
  - clear Hrun Hall Hcurve Hlen.
    induction HF as [|x p xs ps' Hxp _ IH]; constructor.
    + by eapply PointToRhinoPoint_elevation.
    + exact IH.
  - intros Htwo. rewrite Hcurve, CreateControlPointCurve_built; [reflexivity | lia].
  - intros Hfew. rewrite Hcurve. unfold CreateControlPointCurve.
    destruct (Nat.ltb_spec (length ps) 2); [reflexivity | lia].
Qed.

(** X4. A MultiPoint payload of n positions, converted and added, gives n
    consecutive identifiers and n new point objects, the converted positions
    in order, all under the attributes given; the layers are untouched. *)
Theorem MultiPoint_one_point_per_position (positions : list json)
    (att : ObjectAttributes) (d : Document) :
  forallb is_position positions = true ->
  exists rhPoints,
    MultiPointToRhinoPoint (JArr positions) = Ok rhPoints /\
    Forall2 (fun pair p => PointToRhinoPoint pair = Ok p) positions rhPoints /\
    addPoints rhPoints att d
    = (Ok (seq (length (Objects d)) (length positions)),
       mkDocument (Layers d)
         (Objects d ++ map (fun p => mkRhinoObject (GPoint p) att) rhPoints)).
Proof.
  intros Hall.
  destruct (collect_list is_position PointToRhinoPoint positions
              PointToRhinoPoint_position Hall) as (ps & HF & Hrun).
  exists ps. split; [|split; [exact HF|]].
  - unfold MultiPointToRhinoPoint. cbn [iter res_bind]. exact Hrun.
  - rewrite addPoints_run. by rewrite (Forall2_length _ _ _ HF).
Qed.

(** X5. A Polygon payload of k rings, converted and added, gives k
    identifiers, one per ring in the payload's order: every ring, the outer
    boundary and the holes alike, is converted on its own, and the document
    gains one curve object per curve the host built; the layers are
    untouched.  When every ring has at least two positions, the host builds
    a curve from each: the identifiers are k consecutive ones and the
    document gains k new curve objects. *)
Theorem Polygon_one_curve_per_ring (rings : list json)
    (att : ObjectAttributes) (d : Document) :
  forallb is_line rings = true ->
  exists ringList,
    PolygonToRhinoCurve (JArr rings) = Ok ringList /\
    Forall2 (fun ring c => LineStringToRhinoCurve ring = Ok c) rings ringList /\
    addPolygon ringList att d
    = (Ok (curve_ids (length (Objects d)) ringList),
       mkDocument (Layers d)
         (Objects d ++ map (fun g => mkRhinoObject g att)
                         (curve_geometry ringList))) /\
    length (curve_ids (length (Objects d)) ringList) = length rings /\
    (forallb is_path rings = true ->
     exists curves,
       ringList = map Some curves /\
       addPolygon ringList att d
       = (Ok (map Some (seq (length (Objects d)) (length rings))),
          mkDocument (Layers d)
            (Objects d ++ map (fun c => mkRhinoObject (GCurve c) att) curves))).
Proof.
  intros Hall.
  destruct (collect_list is_line LineStringToRhinoCurve rings
              LineStringToRhinoCurve_line Hall) as (cs & HF & Hrun).
  assert (PolygonToRhinoCurve (JArr rings) = Ok cs) as Hcs.
  { unfold PolygonToRhinoCurve. cbn [iter res_bind]. exact Hrun. }
  exists cs. split; [exact Hcs|]. split; [exact HF|].
  split; [apply addCurves_run|]. split.
  - by rewrite curve_ids_length, (Forall2_length _ _ _ HF).
  - intros Hpaths.
    destruct (PolygonToRhinoCurve_paths rings Hpaths) as (curves & Hcurves & Hlen).
    assert (cs = map Some curves) as -> by congruence.
    exists curves. split; [reflexivity|]. unfold addPolygon.
    by rewrite addCurves_run, curve_ids_built, curve_geometry_built, map_map, Hlen.
Qed.

(** X6. Adding the polygons of a MultiPolygon is adding all their rings as
    one list of curves: the same identifiers, the same document. *)
Theorem addPolygons_is_addCurves_concat
    (polygonList : list (list (option Curve)))
    (att : ObjectAttributes) (d : Document) :
  addPolygons polygonList att d = addCurves (concat polygonList) att d.
Proof. by rewrite addPolygons_run, addCurves_run. Qed.

(** ** The destination layer *)

(** What [addRhinoLayer] leaves: the first layer of the name, with the
    color, at the index returned; the layers before it have other names.
    [old] is the layer it replaced, if the name existed. *)
Lemma addRhinoLayer_shape layerName layerColor d :
  exists pre old post,
    filter (fun l => Name l = layerName) pre = [] /\
    Layers d = pre ++ old ++ post /\
    (old = [] /\ post = [] \/ exists l, old = [l] /\ Name l = layerName) /\
    addRhinoLayer layerName layerColor d
    = (Ok (Z.of_nat (length pre)),
       mkDocument (pre ++ mkLayer layerName layerColor :: post) (Objects d)).
Proof.
  destruct (find_layer layerName (Layers d)) as [i|] eqn:Hfind.
  - destruct (find_layer_Some _ _ _ Hfind) as (pre & l & post & Hd & _ & Hl & Hpre).
    exists pre, [l], post. split; [exact Hpre|]. split; [exact Hd|].
    split; [right; by exists l|]. by apply addRhinoLayer_existing with l.
  - exists (Layers d), [], []. split; [by apply find_layer_None|].
    split; [by rewrite !app_nil_r|]. split; [by left|].
    by apply addRhinoLayer_new.
Qed.

(** On a document whose first layer of the name has the color already, the
    call changes nothing. *)
Lemma addRhinoLayer_settled layerName layerColor d pre post :
  Layers d = pre ++ mkLayer layerName layerColor :: post ->
  filter (fun l => Name l = layerName) pre = [] ->
  addRhinoLayer layerName layerColor d = (Ok (Z.of_nat (length pre)), d).
Proof.
  intros Hd Hpre.
  rewrite (addRhinoLayer_existing layerName layerColor d pre
             (mkLayer layerName layerColor) post Hd eq_refl Hpre).
  rewrite <- Hd. by destruct d.
Qed.

(** X7. [addRhinoLayer] settles the layer in one call: calling it again with
    the same name and color returns the same index and changes nothing.  It
    touches no object, adds at most one layer, and leaves every layer of
    another name where and as it was. *)
Theorem addRhinoLayer_settles (layerName : string) (layerColor : Drawing.Color)
    (d : Document) :
  addRhinoLayer layerName layerColor (addRhinoLayer layerName layerColor d).2
  = addRhinoLayer layerName layerColor d /\
  Objects (addRhinoLayer layerName layerColor d).2 = Objects d /\
  (length (Layers (addRhinoLayer layerName layerColor d).2)
   <= length (Layers d) + 1)%nat /\
  (forall (j : nat) l,
      Layers d !! j = Some l -> Name l <> layerName ->
      Layers (addRhinoLayer layerName layerColor d).2 !! j = Some l).
Proof.
  destruct (addRhinoLayer_shape layerName layerColor d)
    as (pre & old & post & Hpre & Hd & Hold & ->).
  cbn [snd Layers Objects]. split; [|split; [reflexivity|split]].
  - by apply (addRhinoLayer_settled _ _ _ pre post).
  - rewrite Hd, !length_app. cbn [length]. lia.
  - intros j l Hj Hne. rewrite Hd in Hj.
    destruct (decide (j < length pre)%nat) as [Hlt|Hge].
    + rewrite lookup_app_l in Hj by exact Hlt. by rewrite lookup_app_l.
    + rewrite lookup_app_r in Hj by lia. rewrite lookup_app_r by lia.
      destruct Hold as [[-> ->]|(l' & -> & Hl')].
      * by destruct (j - length pre)%nat.
      * destruct (j - length pre)%nat as [|n]; simpl in *; [|exact Hj].
        injection Hj as ->. contradiction.
Qed.

Section Destination.

Context `{PythonRuntime}.

(** One feature under a layer name: the layers it leaves are those one
    [addRhinoLayer] call leaves, and its objects carry the index that call
    returns. *)
Lemma processGeoJson_feature_layered layerName color jsonFeature guidResults d :
  exists i d0,
    addRhinoLayer layerName color d = (Ok i, d0) /\
    Layers (processGeoJson_feature (JStr layerName) color jsonFeature
              guidResults d).2 = Layers d0 /\
    grows (fun o => LayerIndex (Attributes o) = Some i) d
      (processGeoJson_feature (JStr layerName) color jsonFeature guidResults d).2.
Proof.
  destruct (addRhinoLayer_shape layerName color d)
    as (pre & old & post & _ & _ & _ & Hrun).
  eexists. eexists. split; [exact Hrun|].
  unfold processGeoJson_feature. cbn [processGeoJson_layer].
  rewrite (bind_Ok _ _ _ _ _ (bind_Ok _ _ _ _ _ Hrun)).
  set (d0 := mkDocument _ (Objects d)).
  set (att1 := set_LayerIndex new_ObjectAttributes _).
  destruct (processGeoJson_properties jsonFeature att1) as [att|e] eqn:Hprops.
  - rewrite (bind_lift_Ok _ _ _ _ eq_refl), bind_ret_document.
    destruct (processGeoJson_geometry_outcome jsonFeature att d0)
      as (geoms & -> & _).
    split; [reflexivity|]. eexists. split; [reflexivity|].
    apply Forall_map, Forall_forall. intros g _. simpl.
    by apply processGeoJson_properties_LayerIndex in Hprops.
  - rewrite (bind_lift_Raise _ _ _ _ eq_refl). simpl.
    split; [reflexivity|]. exists []. by rewrite app_nil_r.
Qed.

(** The features after the first: the layer is settled, so the layers stay
    and the index is the same. *)
Lemma features_layered layerName color (pre post : list Layer) features
    guidResults d :
  Layers d = pre ++ mkLayer layerName color :: post ->
  filter (fun l => Name l = layerName) pre = [] ->
  Layers (for_each features (processGeoJson_feature (JStr layerName) color)
            guidResults d).2 = Layers d /\
  grows (fun o => LayerIndex (Attributes o) = Some (Z.of_nat (length pre))) d
    (for_each features (processGeoJson_feature (JStr layerName) color)
       guidResults d).2.
Proof.
  intros Hd Hpre. revert guidResults d Hd.
  induction features as [|f fs IH]; intros acc d Hd.
  - split; reflexivity.
  - cbn [for_each].
    destruct (processGeoJson_feature_layered layerName color f acc d)
      as (i & d0 & Hrun & HL & HG).
    rewrite (addRhinoLayer_settled _ _ _ _ _ Hd Hpre) in Hrun.
    injection Hrun as <- <-.
    unfold bind.
    destruct (processGeoJson_feature (JStr layerName) color f acc d)
      as [[acc1|e] d1]; cbn [snd] in *; [|by split].
    destruct (IH acc1 d1) as [HL' HG']; [congruence|].
    split; [congruence | by etransitivity].
Qed.

(** X8. [processGeoJson] with a layer name and at least one feature resolves
    the layer as one [addRhinoLayer] call does, however the call ends: the
    layers it leaves are those that call leaves (at most one layer more),
    and every object it creates is assigned the index that call returns. *)
Theorem processGeoJson_assigns_layer (parsedGeoJson : json)
    (features : list json) (layerName : string) (color : Drawing.Color)
    (d : Document) :
  subscript parsedGeoJson (JStr "features") = Ok (JArr features) ->
  features <> [] ->
  exists i d0,
    addRhinoLayer layerName color d = (Ok i, d0) /\
    Layers (processGeoJson parsedGeoJson (JStr layerName) color d).2
    = Layers d0 /\
    grows (fun o => LayerIndex (Attributes o) = Some i) d
      (processGeoJson parsedGeoJson (JStr layerName) color d).2.
Proof.
  intros Hfs Hne. rewrite (processGeoJson_run _ _ _ _ _ Hfs).
  destruct features as [|f fs]; [done|]. cbn [for_each].
  destruct (processGeoJson_feature_layered layerName color f [] d)
    as (i & d0 & Hrun & HL & HG).
  exists i, d0. split; [exact Hrun|].
  destruct (addRhinoLayer_shape layerName color d)
    as (pre & old & post & Hpre & _ & _ & Hrun').
  rewrite Hrun' in Hrun. injection Hrun as <- <-. cbn [Layers] in HL.
  unfold bind.
  destruct (processGeoJson_feature (JStr layerName) color f [] d)
    as [[acc1|e] d1]; cbn [snd] in *; [|by split].
  destruct (features_layered layerName color pre post fs acc1 d1 HL Hpre)
    as [HL' HG'].
  split; [cbn [Layers]; congruence | by etransitivity].
Qed.

End Destination.

(** ** What the properties step accepts *)

Lemma seq_item_cases l i :
  (exists v, seq_item l i = Ok v) \/ seq_item l i = Raise IndexError.
Proof. unfold seq_item. destruct (seq_get l i); eauto. Qed.

Section Acceptance.

Context `{PythonRuntime}.

(** A truthy properties value that is no dict stops the feature: the first
    key the loop meets cannot be both subscripted and used as a key. *)
Lemma processGeoJson_properties_not_dict jsonFeature p att :
  subscript jsonFeature (JStr "properties") = Ok p ->
  truthy p = true ->
  (forall members, p <> JObj members) ->
  exists e, processGeoJson_properties jsonFeature att = Raise e /\
            (e = TypeError \/ e = IndexError).
Proof.
  intros Hp Htruthy Hdict. unfold processGeoJson_properties.
  rewrite Hp. cbn [res_bind]. rewrite Htruthy.
  destruct p as [|b|n|f|s|items|members]; try discriminate.
  - exists TypeError. by split; [|left].
  - exists TypeError. by split; [|left].
  - exists TypeError. by split; [|left].
  - destruct s as [|c s']; [discriminate|].
    exists TypeError. by split; [|left].
  - destruct items as [|x rest]; [discriminate|].
    cbn [iter res_bind for_res].
    destruct x as [|b|i| | | |]; try (exists TypeError; by split; [|left]).
    + cbn [subscript].
      destruct (seq_item_cases (JBool b :: rest) (if b then 1 else 0))
        as [[v ->]| ->]; cbn [res_bind SetUserString].
      * exists TypeError. by split; [|left].
      * exists IndexError. by split; [|right].
    + cbn [subscript].
      destruct (seq_item_cases (JInt i :: rest) i)
        as [[v ->]| ->]; cbn [res_bind SetUserString].
      * exists TypeError. by split; [|left].
      * exists IndexError. by split; [|right].
  - by destruct (Hdict members).
Qed.

(** X9. The properties step returns exactly when the feature has a
    'properties' entry that is falsy (None, false, 0, an empty string, list
    or dict: nothing is copied) or a dict.  A missing entry is the key error
    of the subscript; any other value (a number, true, a non-empty string or
    list) is a type error or an index error. *)
Theorem processGeoJson_properties_accepts (jsonFeature : json)
    (att : ObjectAttributes) :
  is_ok (processGeoJson_properties jsonFeature att)
  = usable_properties jsonFeature /\
  (forall e, subscript jsonFeature (JStr "properties") = Raise e ->
             processGeoJson_properties jsonFeature att = Raise e) /\
  (forall p, subscript jsonFeature (JStr "properties") = Ok p ->
             truthy p = false ->
             processGeoJson_properties jsonFeature att = Ok att) /\
  (forall p e, subscript jsonFeature (JStr "properties") = Ok p ->
               processGeoJson_properties jsonFeature att = Raise e ->
               e = TypeError \/ e = IndexError).
Proof.
  assert (forall p, subscript jsonFeature (JStr "properties") = Ok p ->
                    truthy p = false ->
                    processGeoJson_properties jsonFeature att = Ok att) as Hfalsy.
  { intros p Hp Hf. unfold processGeoJson_properties. rewrite Hp.
    cbn [res_bind]. by rewrite Hf. }
  split; [|split; [|split; [exact Hfalsy|]]].
  - destruct (usable_properties jsonFeature) eqn:Husable.
    + destruct (processGeoJson_properties_returns jsonFeature att Husable)
        as [att' ->]. reflexivity.
    + unfold usable_properties in Husable.
      destruct (subscript jsonFeature (JStr "properties")) as [p|e] eqn:Hp.
      * destruct (processGeoJson_properties_not_dict jsonFeature p att Hp)
          as (e & -> & _); [| |reflexivity].
        -- destruct p; try discriminate; by apply negb_false_iff.
        -- intros members ->. discriminate.
      * unfold processGeoJson_properties. by rewrite Hp.
  - intros e He. unfold processGeoJson_properties. by rewrite He.
  - intros p e Hp Hraise.
    destruct (truthy p) eqn:Htruthy.
    + destruct p as [| | | | | |members].
      7: { destruct (processGeoJson_properties_dict jsonFeature members att Hp)
             as (att' & Hrun & _). congruence. }
      all: destruct (processGeoJson_properties_not_dict jsonFeature _ att Hp
                       Htruthy) as (e' & He' & Hkind); [discriminate|];
           congruence.
    + rewrite (Hfalsy p Hp Htruthy) in Hraise. discriminate.
Qed.

End Acceptance.

(** ** Failures and frames *)

Lemma for_each_stops {A S} (xs ys : list A) (body : A -> S -> M S) acc d e d' :
  for_each xs body acc d = (Raise e, d') ->
  for_each (xs ++ ys) body acc d = (Raise e, d').
Proof.
  revert acc d. induction xs as [|x xs IH]; intros acc d; simpl.
  - discriminate.
  - unfold bind. destruct (body x acc d) as [[a|e1] d1]; [apply IH | trivial].
Qed.

Section Outcomes.

Context `{PythonRuntime}.

Lemma load_within (R : Document -> Document -> Prop) `{!PreOrder R}
    rawGeoJsonData destinationLayer color :
  (forall dl c jsonFeature guidResults,
      within R (processGeoJson_feature dl c jsonFeature guidResults)) ->
  within R (load rawGeoJsonData destinationLayer color).
Proof.
  intros Hbody. unfold load.
  apply within_bind; [exact _ | apply within_lift; exact _ |]. intros geoJson.
  apply processGeoJson_within; [exact _ | apply Hbody].
Qed.

Lemma loadLayers_within (R : Document -> Document -> Prop) `{!PreOrder R}
    rawJsonData :
  (forall dl c jsonFeature guidResults,
      within R (processGeoJson_feature dl c jsonFeature guidResults)) ->
  within R (loadLayers rawJsonData).
Proof.
  intros Hbody. unfold loadLayers.
  apply within_bind; [exact _ | |].
  { destruct rawJsonData; intros d; reflexivity. }
  intros layersJson.
  apply within_bind; [exact _ | apply within_lift; exact _ |]. intros layerKeys.
  apply within_for_each; [exact _|]. intros layerKey allResults.
  apply within_bind; [exact _ | apply within_lift; exact _ |]. intros collection.
  apply within_bind; [exact _ | |].
  { apply processGeoJson_within; [exact _ | apply Hbody]. }
  intros layerResults. apply within_ret; exact _.
Qed.

(** X10. [processGeoJson] stops at the first feature that fails and undoes
    nothing: when it raises on a list of features, it raises the same
    exception and leaves the same document on any longer list that starts
    with them, and the objects created before the failure are still there. *)
Theorem processGeoJson_stops_at_failure (parsedGeoJson longer : json)
    (features more : list json) (destinationLayer : json)
    (color : Drawing.Color) (d d2 : Document) (e : exn) :
  subscript parsedGeoJson (JStr "features") = Ok (JArr features) ->
  subscript longer (JStr "features") = Ok (JArr (features ++ more)) ->
  processGeoJson parsedGeoJson destinationLayer color d = (Raise e, d2) ->
  processGeoJson longer destinationLayer color d = (Raise e, d2) /\
  grows (fun _ => True) d d2.
Proof.
  intros Hfs Hlonger Hrun. split.
  - rewrite (processGeoJson_run _ _ _ _ _ Hfs) in Hrun.
    rewrite (processGeoJson_run _ _ _ _ _ Hlonger).
    by apply for_each_stops.
  - pose proof (processGeoJson_within (grows (fun _ => True)) parsedGeoJson
                  destinationLayer color
                  (fun f a => processGeoJson_feature_grows _ _ f a
                                (fun _ => True) (fun _ _ _ _ => I)) d) as Hw.
    by rewrite Hrun in Hw.
Qed.

(** X11. Whatever they are given and however they end, [processGeoJson],
    [load] and [loadLayers] only add: the objects the document had are still
    there, unchanged and under their identifiers, and its layers keep their
    names and indices. *)
Theorem module_only_adds (d : Document) :
  (forall parsedGeoJson destinationLayer color,
      grows (fun _ => True) d
        (processGeoJson parsedGeoJson destinationLayer color d).2 /\
      names_kept d (processGeoJson parsedGeoJson destinationLayer color d).2) /\
  (forall rawGeoJsonData destinationLayer color,
      grows (fun _ => True) d (load rawGeoJsonData destinationLayer color d).2 /\
      names_kept d (load rawGeoJsonData destinationLayer color d).2) /\
  (forall rawJsonData,
      grows (fun _ => True) d (loadLayers rawJsonData d).2 /\
      names_kept d (loadLayers rawJsonData d).2).
Proof.
  assert (forall dl c jsonFeature guidResults,
             within (grows (fun _ => True))
               (processGeoJson_feature dl c jsonFeature guidResults)) as Hgrows.
  { intros dl c f a.
    exact (processGeoJson_feature_grows dl c f a (fun _ => True)
             (fun _ _ _ _ => I)). }
  assert (forall dl c jsonFeature guidResults,
             within names_kept
               (processGeoJson_feature dl c jsonFeature guidResults)) as Hnames.
  { intros dl c f a. apply processGeoJson_feature_names. }
  split; [|split].
  - intros fc dl c. split.
    + by apply (processGeoJson_within (grows (fun _ => True))).
    + by apply (processGeoJson_within names_kept).
  - intros raw dl c. split.
    + by apply (load_within (grows (fun _ => True))).
    + by apply (load_within names_kept).
  - intros raw. split.
    + by apply (loadLayers_within (grows (fun _ => True))).
    + by apply (loadLayers_within names_kept).
Qed.

(** X12. A Point feature processed without a destination layer creates
    exactly one object, the point (x, y, 0) under the attributes its
    properties give, appends that object's identifier, and creates no layer;
    so does [processGeoJson] on a collection holding only that feature. *)
Theorem Point_feature_adds_one_point (jsonFeature geom x y : json)
    (rest : list json) (fx fy : float) (color : Drawing.Color) :
  usable_properties jsonFeature = true ->
  subscript jsonFeature (JStr "geometry") = Ok geom ->
  subscript geom (JStr "type") = Ok (JStr "Point") ->
  subscript geom (JStr "coordinates") = Ok (JArr (x :: y :: rest)) ->
  to_double x = Ok fx ->
  to_double y = Ok fy ->
  exists att,
    processGeoJson_properties jsonFeature new_ObjectAttributes = Ok att /\
    LayerIndex att = None /\
    (forall guidResults d,
        processGeoJson_feature JNull color jsonFeature guidResults d
        = (Ok (guidResults ++ [VGuid (length (Objects d))]),
           mkDocument (Layers d)
             (Objects d ++ [mkRhinoObject (GPoint (mkPoint3d fx fy 0)) att]))) /\
    (forall parsedGeoJson d,
        subscript parsedGeoJson (JStr "features") = Ok (JArr [jsonFeature]) ->
        processGeoJson parsedGeoJson JNull color d
        = (Ok [VGuid (length (Objects d))],
           mkDocument (Layers d)
             (Objects d ++ [mkRhinoObject (GPoint (mkPoint3d fx fy 0)) att]))).
Proof.
  intros Hprops Hgeom Htype Hc Hx Hy.
  destruct (processGeoJson_properties_returns jsonFeature new_ObjectAttributes
              Hprops) as [att Hatt].
  exists att. split; [exact Hatt|].
  split; [by apply processGeoJson_properties_LayerIndex in Hatt|].
  assert (forall guidResults d,
            processGeoJson_feature JNull color jsonFeature guidResults d
            = (Ok (guidResults ++ [VGuid (length (Objects d))]),
               mkDocument (Layers d)
                 (Objects d ++ [mkRhinoObject (GPoint (mkPoint3d fx fy 0)) att])))
    as Hfeature.
  { intros acc d. unfold processGeoJson_feature. cbn [processGeoJson_layer].
    rewrite bind_ret, (bind_lift_Ok _ _ _ _ Hatt).
    assert (processGeoJson_geometry jsonFeature att d
            = (Ok (VGuid (length (Objects d))),
               mkDocument (Layers d)
                 (Objects d ++ [mkRhinoObject (GPoint (mkPoint3d fx fy 0)) att])))
      as Hrun.
    { unfold processGeoJson_geometry.
      rewrite (bind_lift_Ok _ _ _ _ Hgeom), (bind_lift_Ok _ _ _ _ Htype),
        (bind_lift_Ok _ _ _ _ Hc).
      assert (dict_subscript geoJsonGeometryMap (JStr "Point")
              = Ok (Tuple PointToRhinoPoint addPoint)) as He by reflexivity.
      assert (PointToRhinoPoint (JArr (x :: y :: rest)) = Ok (mkPoint3d fx fy 0))
        as Hconv.
      { rewrite PointToRhinoPoint_pair. unfold new_Point3d. by rewrite Hx, Hy. }
      rewrite (bind_lift_Ok _ _ _ _ He).
      by rewrite (bind_lift_Ok _ _ _ _ Hconv). }
    by rewrite (bind_Ok _ _ _ _ _ Hrun). }
  split; [exact Hfeature|].
  intros fc d Hfs. rewrite (processGeoJson_run _ _ _ _ _ Hfs). cbn [for_each].
  by rewrite (bind_Ok _ _ _ _ _ (Hfeature [] d)).
Qed.

End Outcomes.

(** ** These theorems at work on the worked inputs *)

Lemma LineStringToRhinoCurve_control_points_witness :
  exists rhPoints,
    Forall2 (fun pair p => PointToRhinoPoint pair = Ok p) linePositions rhPoints /\
    Forall (fun p => PZ p = 0%float) rhPoints /\
    LineStringToRhinoCurve (JArr linePositions)
    = Ok (CreateControlPointCurve rhPoints 1) /\
    ((2 <= 4)%nat ->
     LineStringToRhinoCurve (JArr linePositions) = Ok (Some (mkCurve rhPoints 1))) /\
    ((4 < 2)%nat -> LineStringToRhinoCurve (JArr linePositions) = Ok None).
Proof.
  apply (LineStringToRhinoCurve_control_points linePositions). reflexivity.
Defined.

Lemma MultiPoint_one_point_per_position_witness :
  exists rhPoints,
    MultiPointToRhinoPoint (JArr linePositions) = Ok rhPoints /\
    Forall2 (fun pair p => PointToRhinoPoint pair = Ok p) linePositions rhPoints /\
    addPoints rhPoints new_ObjectAttributes empty_document
    = (Ok [0; 1; 2; 3]%nat,
       mkDocument []
         ([] ++ map (fun p => mkRhinoObject (GPoint p) new_ObjectAttributes)
                  rhPoints)).
Proof.
  apply (MultiPoint_one_point_per_position linePositions new_ObjectAttributes
           empty_document).
  reflexivity.
Defined.

Lemma Polygon_one_curve_per_ring_witness :
  exists ringList,
    PolygonToRhinoCurve (JArr [square; square]) = Ok ringList /\
    Forall2 (fun ring c => LineStringToRhinoCurve ring = Ok c)
      [square; square] ringList /\
    addPolygon ringList new_ObjectAttributes empty_document
    = (Ok (curve_ids 0 ringList),
       mkDocument []
         ([] ++ map (fun g => mkRhinoObject g new_ObjectAttributes)
                  (curve_geometry ringList))) /\
    length (curve_ids 0 ringList) = 2%nat /\
    (forallb is_path [square; square] = true ->
     exists curves,
       ringList = map Some curves /\
       addPolygon ringList new_ObjectAttributes empty_document
       = (Ok [Some 0; Some 1]%nat,
          mkDocument []
            ([] ++ map (fun c => mkRhinoObject (GCurve c) new_ObjectAttributes)
                     curves))).
Proof.
  apply (Polygon_one_curve_per_ring [square; square] new_ObjectAttributes
           empty_document).
  reflexivity.
Defined.

Lemma processGeoJson_assigns_layer_witness :
  exists i d0,
    addRhinoLayer "roads" Drawing.Black roadsDocument = (Ok i, d0) /\
    Layers (@processGeoJson sample_runtime myGeoJson (JStr "roads")
              Drawing.Black roadsDocument).2 = Layers d0 /\
    grows (fun o => LayerIndex (Attributes o) = Some i) roadsDocument
      (@processGeoJson sample_runtime myGeoJson (JStr "roads") Drawing.Black
         roadsDocument).2.
Proof.
  apply (@processGeoJson_assigns_layer sample_runtime myGeoJson myFeatures
           "roads" Drawing.Black roadsDocument).
  - reflexivity.
  - unfold myFeatures. discriminate.
Defined.

Lemma processGeoJson_stops_at_failure_witness :
  @processGeoJson sample_runtime
    (featureCollection ([bareFeature; circleFeature] ++ [bareFeature]))
    JNull Drawing.Black empty_document
  = (Raise (KeyError (JStr "Circle")),
     (@processGeoJson sample_runtime
        (featureCollection [bareFeature; circleFeature])
        JNull Drawing.Black empty_document).2) /\
  grows (fun _ => True) empty_document
    (@processGeoJson sample_runtime
       (featureCollection [bareFeature; circleFeature])
       JNull Drawing.Black empty_document).2.
Proof.
  apply (@processGeoJson_stops_at_failure sample_runtime
           (featureCollection [bareFeature; circleFeature])
           (featureCollection ([bareFeature; circleFeature] ++ [bareFeature]))
           [bareFeature; circleFeature] [bareFeature] JNull Drawing.Black
           empty_document);
    vm_compute; reflexivity.
Defined.

Lemma Point_feature_adds_one_point_witness :
  exists att,
    @processGeoJson_properties sample_runtime prop1Feature new_ObjectAttributes
    = Ok att /\
    LayerIndex att = None /\
    (forall guidResults d,
        @processGeoJson_feature sample_runtime JNull Drawing.Black prop1Feature
          guidResults d
        = (Ok (guidResults ++ [VGuid (length (Objects d))]),
           mkDocument (Layers d)
             (Objects d ++ [mkRhinoObject (GPoint (mkPoint3d 102 0.5 0)) att]))) /\
    (forall parsedGeoJson d,
        subscript parsedGeoJson (JStr "features") = Ok (JArr [prop1Feature]) ->
        @processGeoJson sample_runtime parsedGeoJson JNull Drawing.Black d
        = (Ok [VGuid (length (Objects d))],
           mkDocument (Layers d)
             (Objects d ++ [mkRhinoObject (GPoint (mkPoint3d 102 0.5 0)) att]))).
Proof.
  apply (@Point_feature_adds_one_point sample_runtime prop1Feature
           (JObj [("type", JStr "Point"); ("coordinates", position 102 0.5)])
           (JFloat 102) (JFloat 0.5) [] 102%float 0.5%float Drawing.Black);
    reflexivity.
Defined.
